(** * passport-email: credential verification, throttling and registration

    A shallow embedding of [lib/passport-email.js], the mongoose plugin that
    adds [setPassword], [authenticate], [register], [findByUsername] and
    [findByEmail] to a user schema.

    Modelling conventions.
    - A mongoose document is a finite map from field names to values; the
      plugin reads and writes it through [get]/[set] with the field names
      taken from the options, exactly as the source does, so that clashes
      between configured field names are visible in the model.
    - Everything the plugin obtains from its environment (the document
      store, [Date.now], [crypto.randomBytes], [crypto.pbkdf2], buffer
      encoding, [String.prototype.toLowerCase], [util.format]) is a field of
      a [Runtime] record.  The clock and the random source are indexed by
      the number of calls made so far, so two calls may return different
      values.
    - Callbacks are run in sequence: a function of the source that ends by
      calling [cb] returns the arguments it passes to [cb].
    - Every call into the environment is appended to a trace, which is how
      statements such as "without any hash computation" or "before any
      store access" are expressed.
    - Time stamps and counters are integers.  The throttle delay
      [Math.pow(interval, Math.log(attempts + 1))] is a real number
      ([Rpower], [ln]) where JavaScript computes one, and NaN or
      [Infinity] where [Math.log] and [Math.pow] answer so (a negative
      base, a count below zero); binary64 rounding is not modelled.
    - Values given to the model constructor are cast to the type of their
      schema path, as mongoose does; the cast is a field of the runtime,
      since the paths of the user schema are not the plugin's.  A value
      that fails its cast leaves its path undefined and makes [save]
      fail. *)

From Stdlib Require Import ZArith Reals Lra Lia Ascii String DecimalString.
From stdpp Require Import base option list strings gmap.

Local Open Scope Z_scope.

(** ** Values and documents *)

(** A JavaScript number as far as the plugin needs it: an integer, or the
    NaN that arithmetic on [undefined] produces. *)
Inductive number :=
  | NaN
  | Num (z : Z).

(** The values a schema path of type String, Number or Date can hold.  An
    absent key of the document stands for [undefined]. *)
Inductive value :=
  | VString (s : string)
  | VNumber (n : number)
  | VDate (ms : Z).

#[global] Instance number_eq_dec : EqDecision number.
Proof. solve_decision. Defined.

#[global] Instance value_eq_dec : EqDecision value.
Proof. solve_decision. Defined.

Abbreviation Doc := (gmap string value).

Definition get (field : string) (d : Doc) : option value := d !! field.

Definition set (field : string) (v : value) (d : Doc) : Doc := <[field := v]> d.

(** JavaScript truthiness, [!!v]. *)
Definition truthy (v : option value) : bool :=
  match v with
  | None => false
  | Some (VString s) => negb (String.eqb s "")
  | Some (VNumber NaN) => false
  | Some (VNumber (Num z)) => negb (z =? 0)
  | Some (VDate _) => true
  end.

(** [Date.now() - v]: the subtraction coerces [v] to a number.  A date
    coerces to its epoch milliseconds, [undefined] to NaN.  A text
    coerces to the number it spells, if any; the model answers NaN for
    every text, and the statements that depend on the throttle test
    assume the record holds none under the path ([throttle_state_typed]
    below), as the Date type of the path has it. *)
Definition toNumber (v : option value) : number :=
  match v with
  | Some (VNumber n) => n
  | Some (VDate ms) => Num ms
  | Some (VString _) => NaN
  | None => NaN
  end.

(** [v + 1] as a number.  On a number it adds; [undefined + 1] is NaN; on
    a text or a date [+] concatenates.  The text a date gives spells no
    number; the one a text gives may, and the model answers NaN for it all
    the same: the statements that depend on the throttle test assume the
    record holds no text under the path ([throttle_state_typed] below),
    as the Number type of the path has it. *)
Definition plus_one (v : option value) : number :=
  match v with
  | Some (VNumber (Num z)) => Num (z + 1)
  | _ => NaN
  end.

(** ** Errors and callback results *)

(** [BadRequestError] comes from [lib/badrequesterror.js]; the plugin only
    constructs it, with a type tag and a message.  The other constructors
    are the errors raised by the environment: the TypeError and RangeError
    of the language and of node's argument checks, the ValidationError by
    which mongoose's [save] reports the paths that were given a value
    their type cannot hold (a CastError each), and any other error by its
    code. *)
Inductive Error :=
  | BadRequestError (type message : string)
  | TypeError (message : string)
  | RangeError (message : string)
  | ValidationError (paths : gset string)
  | ExternalError (code : string).

(** How [crypto.randomBytes] and [crypto.pbkdf2] report a failure.  An
    argument they reject (a size or a length out of range, a salt of the
    wrong type, a missing digest) makes the call itself raise a TypeError
    or a RangeError, and the callback is never called; every other
    failure is handed to the callback. *)
Definition raised_by_call (e : Error) : bool :=
  match e with
  | TypeError _ | RangeError _ => true
  | _ => false
  end.

(** The third argument of the passport verify callback. *)
Record Info := { result : option string; message : string }.

(** What a function hands to its callback: [cb(err)], [cb(null, user)] or
    [cb(null, false, info)]; [Thrown e] is an exception raised before any
    callback. *)
Inductive CbResult :=
  | CbError (e : Error)
  | CbUser (user : Doc)
  | CbFalse (info : Info)
  | Thrown (e : Error).

(** The outcome of a query: an exception raised while the query was built,
    or what [query.exec] hands to its callback. *)
Inductive Lookup :=
  | Raised (e : Error)
  | Failed (e : Error)
  | Found (user : Doc)
  | Missing.

(** The first argument of [register]: a plain object, or an instance of
    the model. *)
Inductive Candidate :=
  | Plain (obj : Doc)
  | Instance (doc : Doc).

(** ** Options *)

(** The options object as the caller passes it: every key may be absent. *)
Record RawOptions := {
  raw_saltlen : option Z;
  raw_iterations : option Z;
  raw_keylen : option Z;
  raw_encoding : option string;
  raw_usernameField : option string;
  raw_usernameUnique : option bool;
  raw_emailField : option string;
  raw_usernameLowerCase : option bool;
  raw_hashField : option string;
  raw_saltField : option string;
  raw_limitAttempts : option bool;
  raw_lastLoginField : option string;
  raw_attemptsField : option string;
  raw_interval : option Z;
  raw_maxInterval : option Z;
  raw_incorrectPasswordError : option string;
  raw_incorrectUsernameError : option string;
  raw_missingUsernameError : option string;
  raw_missingEmailError : option string;
  raw_missingPasswordError : option string;
  raw_userExistsError : option string;
  raw_noSaltValueStoredError : option string;
  raw_attemptTooSoonError : option string;
  raw_selectFields : option string;
  raw_populateFields : option string
}.

(** The options after the defaulting at the head of the plugin. *)
Record Options := {
  saltlen : Z;
  iterations : Z;
  keylen : Z;
  encoding : string;
  usernameField : string;
  usernameUnique : bool;
  emailField : string;
  usernameLowerCase : bool;
  hashField : string;
  saltField : string;
  limitAttempts : bool;
  lastLoginField : string;
  attemptsField : string;
  interval : Z;
  maxInterval : Z;
  incorrectPasswordError : string;
  incorrectUsernameError : string;
  missingUsernameError : string;
  missingEmailError : string;
  missingPasswordError : string;
  userExistsError : string;
  noSaltValueStoredError : string;
  attemptTooSoonError : string;
  selectFields : option string;
  populateFields : option string
}.

(** [x || d] for a number: [undefined] and [0] give the default. *)
Definition or_num (x : option Z) (d : Z) : Z :=
  match x with
  | Some z => if z =? 0 then d else z
  | None => d
  end.

(** [x || d] for a string: [undefined] and the empty string give the
    default. *)
Definition or_str (x : option string) (d : string) : string :=
  match x with
  | Some s => if String.eqb s "" then d else s
  | None => d
  end.

(** [x || false] for a flag. *)
Definition or_false (x : option bool) : bool := default false x.

(** Lines 10-42.  The four throttling options are defaulted only under
    [limitAttempts]; they are read only under [limitAttempts] as well, so
    the model fills them in either way. *)
Definition plugin_options (r : RawOptions) : Options := {|
  saltlen := or_num (raw_saltlen r) 32;
  iterations := or_num (raw_iterations r) 25000;
  keylen := or_num (raw_keylen r) 512;
  encoding := or_str (raw_encoding r) "hex";
  usernameField := or_str (raw_usernameField r) "username";
  usernameUnique := default true (raw_usernameUnique r);
  emailField := or_str (raw_emailField r) "email";
  usernameLowerCase := or_false (raw_usernameLowerCase r);
  hashField := or_str (raw_hashField r) "hash";
  saltField := or_str (raw_saltField r) "salt";
  limitAttempts := or_false (raw_limitAttempts r);
  lastLoginField := or_str (raw_lastLoginField r) "last";
  attemptsField := or_str (raw_attemptsField r) "attempts";
  interval := or_num (raw_interval r) 100;
  maxInterval := or_num (raw_maxInterval r) 300000;
  incorrectPasswordError := or_str (raw_incorrectPasswordError r) "Incorrect password";
  incorrectUsernameError := or_str (raw_incorrectUsernameError r) "Incorrect %s";
  missingUsernameError := or_str (raw_missingUsernameError r) "Field %s is not set";
  missingEmailError := or_str (raw_missingEmailError r) "Email is missing";
  missingPasswordError := or_str (raw_missingPasswordError r) "Password argument not set!";
  userExistsError := or_str (raw_userExistsError r) "User already exists with %s %s";
  noSaltValueStoredError :=
    or_str (raw_noSaltValueStoredError r)
      "Authentication not possible. No salt value stored in mongodb collection!";
  attemptTooSoonError :=
    or_str (raw_attemptTooSoonError r) "Login attempted too soon after previous attempt";
  selectFields := raw_selectFields r;
  populateFields := raw_populateFields r
|}.

(** [passportEmail(schema)] with no options at all. *)
Definition no_options : RawOptions := {|
  raw_saltlen := None; raw_iterations := None; raw_keylen := None;
  raw_encoding := None; raw_usernameField := None; raw_usernameUnique := None;
  raw_emailField := None; raw_usernameLowerCase := None; raw_hashField := None;
  raw_saltField := None; raw_limitAttempts := None; raw_lastLoginField := None;
  raw_attemptsField := None; raw_interval := None; raw_maxInterval := None;
  raw_incorrectPasswordError := None; raw_incorrectUsernameError := None;
  raw_missingUsernameError := None; raw_missingEmailError := None;
  raw_missingPasswordError := None; raw_userExistsError := None;
  raw_noSaltValueStoredError := None; raw_attemptTooSoonError := None;
  raw_selectFields := None; raw_populateFields := None
|}.

(** [passportEmail(schema, {limitAttempts: true})]. *)
Definition throttling_options : RawOptions := {|
  raw_saltlen := None; raw_iterations := None; raw_keylen := None;
  raw_encoding := None; raw_usernameField := None; raw_usernameUnique := None;
  raw_emailField := None; raw_usernameLowerCase := None; raw_hashField := None;
  raw_saltField := None; raw_limitAttempts := Some true; raw_lastLoginField := None;
  raw_attemptsField := None; raw_interval := None; raw_maxInterval := None;
  raw_incorrectPasswordError := None; raw_incorrectUsernameError := None;
  raw_missingUsernameError := None; raw_missingEmailError := None;
  raw_missingPasswordError := None; raw_userExistsError := None;
  raw_noSaltValueStoredError := None; raw_attemptTooSoonError := None;
  raw_selectFields := None; raw_populateFields := None
|}.

(** ** Schema paths *)

(** The schema types the plugin declares, and what a path declaration
    carries: its type, the [unique] flag if given, and its default. *)
Inductive SchemaType :=
  | TString
  | TNumber
  | TDate.

Inductive PathDefault :=
  | NoDefault
  | DefaultValue (v : value)
  | DefaultDateNow.

Record PathSpec := {
  path_type : SchemaType;
  path_unique : option bool;
  path_default : PathDefault
}.

(** ** The environment *)

Definition Buffer := list Byte.byte.

(** The outcome of casting a value to the type of a schema path: the
    value as the type holds it ([0] under a String path becomes ['0']);
    no value, for a path the schema does not have, which a strict schema
    drops; or a CastError, recorded on the document for [save] to
    report. *)
Inductive Cast :=
  | CastTo (v : value)
  | NotInSchema
  | CastFails.

(** One entry per call into the environment, in call order. *)
Inductive Event :=
  | EvDateNow (t : Z)
  | EvRandomBytes (size : Z)
  | EvPbkdf2 (password salt : string) (iterations keylen : Z)
  | EvFindOne (field : string) (v : option value)
  | EvSave (d : Doc).

(** What the plugin requires from mongoose and node.
    - [findOne s field v select populate] is
      [Model.findOne({field: v})] with the optional [select] and
      [populate] applied, executed on store [s];
    - [persist s d] is the store write at the end of [doc.save()];
    - [Date_now_at i] is the value of the [i]-th call of [Date.now()];
    - [randomBytes_at i n] is the outcome of the [i]-th call of
      [crypto.randomBytes], asked for [n] bytes;
    - [pbkdf2 password salt iterations keylen] is the outcome of
      [crypto.pbkdf2]; [raised_by_call] tells an error raised by the call
      from one handed to its callback, for [randomBytes_at] as well;
    - [Buffer_toString b enc] is [b.toString(enc)];
    - [util_format] is [util.format];
    - [castPath path v] is what mongoose makes of the value [v] given
      for [path] when a document is built from a plain object. *)
Record Runtime := {
  Store : Type;
  findOne : Store -> string -> option value -> option string -> option string ->
            Error + option Doc;
  persist : Store -> Doc -> Error + Store;
  Date_now_at : nat -> Z;
  randomBytes_at : nat -> Z -> Error + Buffer;
  pbkdf2 : string -> string -> Z -> Z -> Error + Buffer;
  Buffer_toString : Buffer -> string -> string;
  toLowerCase : string -> string;
  util_format : string -> list (option value) -> string;
  castPath : string -> value -> Cast
}.

(** What [Math.pow] answers: a real number, [Infinity] or NaN. *)
Inductive Power :=
  | PNaN
  | PInfinity
  | PReal (r : R).

#[global] Instance Rlt_decision : RelDecision Rlt := Rlt_dec.

Section Plugin.

Context (rt : Runtime).

(** The state of the world between two steps of the plugin. *)
Record World := {
  store : Store rt;
  ticks : nat;
  draws : nat;
  trace : list Event
}.

(** Computations that read and update the world. *)
Definition M (A : Type) : Type := World -> A * World.

Definition ret {A : Type} (a : A) : M A := fun w => (a, w).

Definition bind {A B : Type} (m : M A) (k : A -> M B) : M B :=
  fun w => let (a, w') := m w in k a w'.

Notation "x <~ m ;; k" := (bind m (fun x => k))
  (at level 100, m at next level, right associativity).

Definition emit (e : Event) (w : World) : World :=
  {| store := store w; ticks := ticks w; draws := draws w;
     trace := trace w ++ [e] |}.

(** [Date.now()] *)
Definition Date_now : M Z := fun w =>
  let t := Date_now_at rt (ticks w) in
  (t, {| store := store w; ticks := S (ticks w); draws := draws w;
         trace := trace w ++ [EvDateNow t] |}).

(** [crypto.randomBytes(size, cb)] *)
Definition crypto_randomBytes (size : Z) : M (Error + Buffer) := fun w =>
  (randomBytes_at rt (draws w) size,
   {| store := store w; ticks := ticks w; draws := S (draws w);
      trace := trace w ++ [EvRandomBytes size] |}).

(** [crypto.pbkdf2(password, salt, iterations, keylen, cb)] *)
Definition crypto_pbkdf2 (password salt : string) (iters klen : Z) :
    M (Error + Buffer) := fun w =>
  (pbkdf2 rt password salt iters klen,
   emit (EvPbkdf2 password salt iters klen) w).

(** [new Buffer(hashRaw, 'binary')]: a copy of the derived key. *)
Definition Buffer_binary (hashRaw : Buffer) : Buffer := hashRaw.

(** The number of key derivations, store reads and store writes the
    trace records. *)
Definition is_pbkdf2 (e : Event) : bool :=
  match e with EvPbkdf2 _ _ _ _ => true | _ => false end.

Definition is_findOne (e : Event) : bool :=
  match e with EvFindOne _ _ => true | _ => false end.

Definition is_save (e : Event) : bool :=
  match e with EvSave _ => true | _ => false end.

Definition count_events (p : Event -> bool) (l : list Event) : nat :=
  length (List.filter p l).

Definition hash_computations (w : World) : nat :=
  count_events is_pbkdf2 (trace w).

Definition store_reads (w : World) : nat :=
  count_events is_findOne (trace w).

Definition store_writes (w : World) : nat :=
  count_events is_save (trace w).

(** The plugin is a closure over its options. *)
Context (options : Options).

(** [v.toLowerCase()]; a value that is not a string has no such method. *)
Definition lower (v : option value) : Error + value :=
  match v with
  | Some (VString s) => inr (VString (toLowerCase rt s))
  | _ => inl (TypeError "toLowerCase is not a function")
  end.

(** Lines 74-84, [schema.pre('save', ...)].  Returns the document as the
    hook leaves it and the exception it raised, if any. *)
Definition pre_save (self : Doc) : Doc * option Error :=
  let step :=
    if usernameLowerCase options then
      match lower (self !! usernameField options) with
      | inr v => (<[usernameField options := v]> self, None)
      | inl e => (self, Some e)
      end
    else (self, None) in
  match step with
  | (d, Some e) => (d, Some e)
  | (d, None) =>
      if truthy (d !! emailField options) then
        match lower (d !! emailField options) with
        | inr v => (<[emailField options := v]> d, None)
        | inl e => (d, Some e)
        end
      else (d, None)
  end.

(** [doc.save(cb)]: the pre-save hook, then the store write.  Returns the
    document as the hook left it and the error handed to [cb], if any.
    The trace records the document [save] was called on. *)
Definition save (self : Doc) : M (Doc * option Error) := fun w =>
  let w1 := emit (EvSave self) w in
  match pre_save self with
  | (d, Some e) => ((d, Some e), w1)
  | (d, None) =>
      match persist rt (store w1) d with
      | inl e => ((d, Some e), w1)
      | inr s =>
          ((d, None),
           {| store := s; ticks := ticks w1; draws := draws w1;
              trace := trace w1 |})
      end
  end.

(** [doc.save()] on a document some of whose paths were given values
    that failed their cast: [set] has left these paths as they were and
    recorded the errors; validation, which runs before the pre-save
    hook, reports them, and nothing is written.  Returns the error: it
    goes to the callback of [save], and is raised out of [save()] when
    there is none. *)
Definition save_invalid (self : Doc) (paths : gset string) : M Error :=
  fun w => (ValidationError paths, emit (EvSave self) w).

(** Lines 86-111, [schema.methods.setPassword = function (password, cb)].
    [None] is an [undefined] password.  Returns the document as the call
    leaves it and the error of the call, if any: the one handed to [cb],
    or, when [raised_by_call] holds of it, the one raised by
    [crypto.randomBytes] or [crypto.pbkdf2] before [cb] was called. *)
Definition methods_setPassword (password : option string) (self : Doc) :
    M (Doc * option Error) :=
  match password with
  | None | Some "" =>
      ret (self, Some (BadRequestError "missingPassword"
                         (missingPasswordError options)))
  | Some pw =>
      r <~ crypto_randomBytes (saltlen options) ;;
      match r with
      | inl err => ret (self, Some err)
      | inr buf =>
          let salt := Buffer_toString rt buf (encoding options) in
          h <~ crypto_pbkdf2 pw salt (iterations options) (keylen options) ;;
          match h with
          | inl err => ret (self, Some err)
          | inr hashRaw =>
              let self1 :=
                set (hashField options)
                  (VString (Buffer_toString rt (Buffer_binary hashRaw)
                              (encoding options))) self in
              let self2 := set (saltField options) (VString salt) self1 in
              ret (self2, None)
          end
      end
  end.

(** Line 117, [Math.pow(interval, Math.log(attempts + 1))], with
    [n = attempts + 1].
    - [Math.log] of NaN or of a negative number is NaN, and so is the
      power.
    - [Math.log(0)] is [-Infinity]: the power is [Infinity] for the base
      0, NaN for the bases 1 and -1, and 0 for every other base.
    - [Math.log(1)] is 0, and the power is 1 whatever the base.
    - From [n = 2] on the logarithm is positive and not an integer: the
      power is the real power for a positive base, 0 for the base 0,
      and NaN for a negative base. *)
Definition attemptsInterval (attempts : option value) : Power :=
  match plus_one attempts with
  | NaN => PNaN
  | Num n =>
      if n <? 0 then PNaN
      else if n =? 0 then
        if interval options =? 0 then PInfinity
        else if Z.abs (interval options) =? 1 then PNaN
        else PReal 0
      else if n =? 1 then PReal 1
      else if 0 <? interval options then
        PReal (Rpower (IZR (interval options)) (ln (IZR n)))
      else if interval options =? 0 then PReal 0
      else PNaN
  end.

(** Line 118.  A comparison with NaN is false, and [Infinity] is below
    no number: both select [maxInterval]. *)
Definition calculatedInterval (attempts : option value) : R :=
  match attemptsInterval attempts with
  | PReal a =>
      if decide (a < IZR (maxInterval options))%R then a
      else IZR (maxInterval options)
  | PInfinity | PNaN => IZR (maxInterval options)
  end.

(** Line 120, the test [Date.now() - last < calculatedInterval], given
    the value [now] that [Date.now()] returned. *)
Definition tooSoon (now : Z) (self : Doc) : bool :=
  match toNumber (get (lastLoginField options) self) with
  | Num last =>
      bool_decide
        (IZR (now - last) <
         calculatedInterval (get (attemptsField options) self))%R
  | NaN => false
  end.

(** Lines 113-162, [schema.methods.authenticate = function (password, cb)].
    Returns the document as the call leaves it and the arguments of
    [cb].  The outcome of the [save()] calls is dropped, as in the
    source, which passes them no callback.  Two paths end without a
    call of [cb]: [crypto.pbkdf2] raising from the call itself, and, on
    a wrong password under throttling, a count that is not a number:
    [attempts + 1] is then NaN, which the Number path refuses, and the
    [save()] of line 154 raises the error of that path. *)
Definition methods_authenticate (password : string) (self : Doc) :
    M (Doc * CbResult) :=
  throttled <~
    (if limitAttempts options then
       now <~ Date_now ;; ret (tooSoon now self)
     else ret false) ;;
  if throttled then
    now <~ Date_now ;;
    saved <~ save (set (lastLoginField options) (VDate now) self) ;;
    ret (fst saved,
         CbFalse {| result := None; message := attemptTooSoonError options |})
  else if negb (truthy (get (saltField options) self)) then
    ret (self,
         CbFalse {| result := None;
                    message := noSaltValueStoredError options |})
  else
    match get (saltField options) self with
    | Some (VString salt) =>
        h <~ crypto_pbkdf2 password salt (iterations options)
               (keylen options) ;;
        match h with
        | inl err =>
            ret (self, if raised_by_call err then Thrown err
                       else CbError err)
        | inr hashRaw =>
            let hash :=
              Buffer_toString rt (Buffer_binary hashRaw) (encoding options) in
            if decide (get (hashField options) self = Some (VString hash))
            then
              if limitAttempts options then
                now <~ Date_now ;;
                let self1 := set (lastLoginField options) (VDate now) self in
                let self2 :=
                  set (attemptsField options) (VNumber (Num 0)) self1 in
                saved <~ save self2 ;;
                ret (fst saved, CbUser (fst saved))
              else ret (self, CbUser self)
            else
              if limitAttempts options then
                now <~ Date_now ;;
                let self1 := set (lastLoginField options) (VDate now) self in
                match plus_one (get (attemptsField options) self1) with
                | Num n =>
                    let self2 :=
                      set (attemptsField options) (VNumber (Num n)) self1 in
                    saved <~ save self2 ;;
                    ret (fst saved,
                         CbFalse
                           {| result := Some "incorrectPassword";
                              message := incorrectPasswordError options |})
                | NaN =>
                    e <~ save_invalid self1 {[attemptsField options]} ;;
                    ret (self1, Thrown e)
                end
              else
                ret (self,
                     CbFalse {| result := Some "incorrectPassword";
                                message := incorrectPasswordError options |})
        end
    | _ => ret (self, Thrown (TypeError "salt must be a string or a buffer"))
    end.

(** [query.exec(cb)] on [findOne({field: v})] with the configured
    [select] and [populate]. *)
Definition exec_findOne (field : string) (v : option value) : M Lookup :=
  fun w =>
    (match findOne rt (store w) field v (selectFields options)
             (populateFields options) with
     | inl e => Failed e
     | inr (Some user) => Found user
     | inr None => Missing
     end,
     emit (EvFindOne field v) w).

(** Lines 259-283, [schema.statics.findByUsername], called with a
    callback. *)
Definition statics_findByUsername (username : option value) : M Lookup :=
  match username with
  | Some v =>
      if usernameLowerCase options then
        match lower (Some v) with
        | inr v' => exec_findOne (usernameField options) (Some v')
        | inl e => ret (Raised e)
        end
      else exec_findOne (usernameField options) (Some v)
  | None => exec_findOne (usernameField options) None
  end.

(** Lines 285-309, [schema.statics.findByEmail], called with a
    callback. *)
Definition statics_findByEmail (email : option value) : M Lookup :=
  match email with
  | Some v =>
      match lower (Some v) with
      | inr v' => exec_findOne (emailField options) (Some v')
      | inl e => ret (Raised e)
      end
  | None => exec_findOne (emailField options) None
  end.

(** Lines 164-193, the function returned by
    [schema.statics.authenticate()].  Besides the arguments of [cb] it
    returns the document the lookup produced, as the call leaves it. *)
Definition statics_authenticate (usernameOrEmail : option value)
    (password : string) : M (option Doc * CbResult) :=
  l <~ statics_findByUsername usernameOrEmail ;;
  match l with
  | Raised e => ret (None, Thrown e)
  | Failed err => ret (None, CbError err)
  | Found user =>
      r <~ methods_authenticate password user ;;
      ret (Some (fst r), snd r)
  | Missing =>
      l2 <~ statics_findByEmail usernameOrEmail ;;
      match l2 with
      | Raised e => ret (None, Thrown e)
      | Failed err => ret (None, CbError err)
      | Found user =>
          r <~ methods_authenticate password user ;;
          ret (Some (fst r), snd r)
      | Missing =>
          ret (None,
               CbFalse
                 {| result := Some "incorrectUsername";
                    message :=
                      util_format rt (incorrectUsernameError options)
                        [Some (VString (usernameField options))] |})
      end
  end.

(** The value a path of the document gets from the value given for it. *)
Definition cast_value (path : string) (v : value) : option value :=
  match castPath rt path v with
  | CastTo v' => Some v'
  | NotInSchema | CastFails => None
  end.

(** The paths of a plain object whose values fail their cast. *)
Definition failed_casts (obj : Doc) : gset string :=
  dom (map_imap
         (fun path v =>
            match castPath rt path v with
            | CastFails => Some v
            | CastTo _ | NotInSchema => None
            end) obj).

(** [new this(user)]: every value of the plain object is cast to the
    type of its path, and the schema defaults of lines 61-70 fill the
    paths that get no value.  [Date.now] is the default of the
    last-attempt path, so it is called when that path is filled.  The
    paths the plugin does not declare are taken to have no default. *)
Definition construct (obj : Doc) : M Doc :=
  let cast : Doc := map_imap cast_value obj in
  if limitAttempts options then
    let d :=
      match get (attemptsField options) cast with
      | None => set (attemptsField options) (VNumber (Num 0)) cast
      | Some _ => cast
      end in
    match get (lastLoginField options) d with
    | None => now <~ Date_now ;; ret (set (lastLoginField options) (VDate now) d)
    | Some _ => ret d
    end
  else ret cast.

(** Lines 211-213: [if (!(user instanceof this)) user = new this(user)]. *)
Definition instantiate (candidate : Candidate) : M Doc :=
  match candidate with
  | Instance doc => ret doc
  | Plain obj => construct obj
  end.

(** The paths at which the document so obtained is invalid.  An
    instance handed to [register] is taken to be a valid one. *)
Definition cast_failures (candidate : Candidate) : gset string :=
  match candidate with
  | Instance _ => ∅
  | Plain obj => failed_casts obj
  end.

(** Lines 209-257, [schema.statics.register = function (user, password,
    cb)].  Returns the document as the call leaves it and the arguments
    of [cb]. *)
Definition statics_register (candidate : Candidate)
    (password : option string) : M (Doc * CbResult) :=
  user <~ instantiate candidate ;;
  if negb (truthy (get (usernameField options) user)) then
    ret (user,
         CbError
           (BadRequestError "missingUsername"
              (util_format rt (missingUsernameError options)
                 [Some (VString (usernameField options))])))
  else if negb (truthy (get (emailField options) user)) then
    ret (user,
         CbError (BadRequestError "missingEmail" (missingEmailError options)))
  else
    l <~ statics_findByUsername (get (usernameField options) user) ;;
    match l with
    | Raised e => ret (user, Thrown e)
    | Failed err => ret (user, CbError err)
    | Found _ =>
        ret (user,
             CbError
               (BadRequestError "usernameExists"
                  (util_format rt (userExistsError options)
                     [Some (VString (usernameField options));
                      get (usernameField options) user])))
    | Missing =>
        l2 <~ statics_findByEmail (get (emailField options) user) ;;
        match l2 with
        | Raised e => ret (user, Thrown e)
        | Failed err => ret (user, CbError err)
        | Found _ =>
            ret (user,
                 CbError
                   (BadRequestError "emailExists"
                      (util_format rt (userExistsError options)
                         [Some (VString (emailField options));
                          get (emailField options) user])))
        | Missing =>
            p <~ methods_setPassword password user ;;
            match snd p with
            | Some err =>
                ret (fst p, if raised_by_call err then Thrown err
                            else CbError err)
            | None =>
                if decide (cast_failures candidate = ∅) then
                  saved <~ save (fst p) ;;
                  match snd saved with
                  | Some err => ret (fst saved, CbError err)
                  | None => ret (fst saved, CbUser (fst saved))
                  end
                else
                  err <~ save_invalid (fst p) (cast_failures candidate) ;;
                  ret (fst p, CbError err)
            end
        end
    end.



(** Lines 44-72, the object passed to [schema.add].  [has_path] is
    [schema.path]: whether the schema already declares a path.  Keys are
    assigned in source order, a later assignment replacing an earlier
    one under the same key. *)
Definition schemaFields (has_path : string -> bool) :
    gmap string PathSpec :=
  let f0 : gmap string PathSpec := ∅ in
  let f1 :=
    if has_path (usernameField options) then f0
    else <[usernameField options :=
             {| path_type := TString;
                path_unique := Some (usernameUnique options);
                path_default := NoDefault |}]> f0 in
  let f2 :=
    if has_path (emailField options) then f1
    else <[emailField options :=
             {| path_type := TString; path_unique := Some true;
                path_default := NoDefault |}]> f1 in
  let f3 :=
    <[hashField options :=
        {| path_type := TString; path_unique := None;
           path_default := NoDefault |}]> f2 in
  let f4 :=
    <[saltField options :=
        {| path_type := TString; path_unique := None;
           path_default := NoDefault |}]> f3 in
  if limitAttempts options then
    <[lastLoginField options :=
        {| path_type := TDate; path_unique := None;
           path_default := DefaultDateNow |}]>
      (<[attemptsField options :=
           {| path_type := TNumber; path_unique := None;
              path_default := DefaultValue (VNumber (Num 0)) |}]> f4)
  else f4.

End Plugin.

(** ** Vocabulary of the statements *)

(** The delay as the specification words it:
    [min(maxInterval, interval ^ ln(failureCount + 1))], in milliseconds. *)
Definition delay (o : Options) (failureCount : Z) : R :=
  Rmin (IZR (maxInterval o))
       (Rpower (IZR (interval o)) (ln (IZR (failureCount + 1)))).

(** The world once the throttle test of lines 116-128 has been evaluated:
    with throttling enabled the test has read the clock once. *)
Definition after_gate (rt : Runtime) (o : Options) (w : World rt) : World rt :=
  if limitAttempts o then (Date_now rt w).2 else w.

(** The attempt made in world [w] passes the throttle test: throttling is
    disabled, or the test of line 120 is false. *)
Definition not_throttled (rt : Runtime) (o : Options) (self : Doc)
    (w : World rt) : Prop :=
  limitAttempts o = true ->
  tooSoon o (Date_now_at rt (ticks rt w)) self = false.

(** The throttle state as the schema types it: with throttling enabled,
    the Number path of the failure count and the Date path of the last
    attempt hold no text. *)
Definition throttle_state_typed (o : Options) (self : Doc) : Prop :=
  limitAttempts o = true ->
  (forall s, get (attemptsField o) self <> Some (VString s)) /\
  (forall s, get (lastLoginField o) self <> Some (VString s)).

(** The [info] objects of the four authentication failures. *)
Definition tooSoon_info (o : Options) : Info :=
  {| result := None; message := attemptTooSoonError o |}.

Definition noSalt_info (o : Options) : Info :=
  {| result := None; message := noSaltValueStoredError o |}.

Definition incorrectPassword_info (o : Options) : Info :=
  {| result := Some "incorrectPassword"; message := incorrectPasswordError o |}.

Definition incorrectUsername_info (rt : Runtime) (o : Options) : Info :=
  {| result := Some "incorrectUsername";
     message := util_format rt (incorrectUsernameError o)
                  [Some (VString (usernameField o))] |}.

(** The throttle fields [attempts] and [last] are two different paths, and
    neither is a path the pre-save hook rewrites. *)
Definition throttle_fields_apart (o : Options) : Prop :=
  attemptsField o <> lastLoginField o /\
  attemptsField o <> usernameField o /\ attemptsField o <> emailField o /\
  lastLoginField o <> usernameField o /\ lastLoginField o <> emailField o.

(** ** A runtime to run the plugin on concrete inputs

    An in-memory store (newest document first), a clock that starts at
    1000 ms and advances by one millisecond per reading, a constant random
    source, a key derivation that concatenates password and salt, the
    identity encoding, ASCII lower-casing, a [format] that returns its
    format string, and the casts of a schema whose paths are the
    plugin's under their default names: [attempts] a Number, [last] a
    Date, [username], [email], [hash] and [salt] Strings.  The casts are
    those of the values the examples give: a value of the type of its
    path is kept, an integer becomes its decimal text under a String path
    and the date of that epoch time under a Date path; this runtime
    rejects every other value. *)

Definition ascii_lower (c : Ascii.ascii) : Ascii.ascii :=
  let n := nat_of_ascii c in
  if ((65 <=? n) && (n <=? 90))%nat then ascii_of_nat (n + 32) else c.

Fixpoint string_lower (s : string) : string :=
  match s with
  | EmptyString => EmptyString
  | String c s' => String (ascii_lower c) (string_lower s')
  end.

(** The decimal text of an integer, as [String(n)] gives it. *)
Definition Z_to_string (z : Z) : string :=
  NilZero.string_of_int (Z.to_int z).

Definition mem_castPath (path : string) (v : value) : Cast :=
  if String.eqb path "attempts" then
    match v with
    | VNumber (Num z) => CastTo (VNumber (Num z))
    | _ => CastFails
    end
  else if String.eqb path "last" then
    match v with
    | VDate ms => CastTo (VDate ms)
    | VNumber (Num z) => CastTo (VDate z)
    | _ => CastFails
    end
  else if bool_decide (path ∈ ["username"; "email"; "hash"; "salt"]) then
    match v with
    | VString s => CastTo (VString s)
    | VNumber (Num z) => CastTo (VString (Z_to_string z))
    | _ => CastFails
    end
  else NotInSchema.

Definition mem_runtime : Runtime := {|
  Store := list Doc;
  findOne := fun s field v _ _ =>
    inr (List.find (fun d : Doc => bool_decide (d !! field = v)) s);
  persist := fun s d => inr (d :: s);
  Date_now_at := fun i => 1000 + Z.of_nat i;
  randomBytes_at := fun _ n => inr (repeat Byte.x2a (Z.to_nat n));
  pbkdf2 := fun password salt _ _ =>
    inr (list_byte_of_string (password +:+ salt));
  Buffer_toString := fun b _ => string_of_list_byte b;
  toLowerCase := string_lower;
  util_format := fun fmt _ => fmt;
  castPath := mem_castPath
|}.

Definition world0 : World mem_runtime :=
  Build_World mem_runtime ([] : list Doc) 0 0 [].

(** The default options, and the default options with throttling. *)
Definition default_o : Options := plugin_options no_options.

Definition throttling_o : Options := plugin_options throttling_options.

(** A record with no failures whose last attempt was at 1000 ms, the time
    of [world0]'s first clock reading; and one whose last attempt was at
    0 ms. *)
Definition recent_doc : Doc :=
  <["attempts" := VNumber (Num 0)]> (<["last" := VDate 1000]> ∅).

Definition rested_doc : Doc :=
  <["attempts" := VNumber (Num 0)]> (<["last" := VDate 0]> ∅).

(** The errors [register] hands to its callback. *)
Definition missingUsername_error (rt : Runtime) (o : Options) : Error :=
  BadRequestError "missingUsername"
    (util_format rt (missingUsernameError o)
       [Some (VString (usernameField o))]).

Definition missingEmail_error (o : Options) : Error :=
  BadRequestError "missingEmail" (missingEmailError o).

Definition usernameExists_error (rt : Runtime) (o : Options) (user : Doc) :
    Error :=
  BadRequestError "usernameExists"
    (util_format rt (userExistsError o)
       [Some (VString (usernameField o)); get (usernameField o) user]).

Definition emailExists_error (rt : Runtime) (o : Options) (user : Doc) :
    Error :=
  BadRequestError "emailExists"
    (util_format rt (userExistsError o)
       [Some (VString (emailField o)); get (emailField o) user]).

(** Throttling enabled, and the two messages that carry no code set to
    the same text. *)
Definition same_message_options : RawOptions := {|
  raw_saltlen := None; raw_iterations := None; raw_keylen := None;
  raw_encoding := None; raw_usernameField := None; raw_usernameUnique := None;
  raw_emailField := None; raw_usernameLowerCase := None; raw_hashField := None;
  raw_saltField := None; raw_limitAttempts := Some true; raw_lastLoginField := None;
  raw_attemptsField := None; raw_interval := None; raw_maxInterval := None;
  raw_incorrectPasswordError := None; raw_incorrectUsernameError := None;
  raw_missingUsernameError := None; raw_missingEmailError := None;
  raw_missingPasswordError := None; raw_userExistsError := None;
  raw_noSaltValueStoredError := Some "Login failed";
  raw_attemptTooSoonError := Some "Login failed";
  raw_selectFields := None; raw_populateFields := None
|}.

Definition same_message_o : Options := plugin_options same_message_options.

(** [rested_doc] with the salt and the digest that [mem_runtime] derives
    for the secret ["secret"]. *)
Definition registered_doc : Doc :=
  <["hash" := VString "secretNaCl"]> (<["salt" := VString "NaCl"]> rested_doc).

(** The object passed to [register] in the tests. *)
Definition hugo : Doc :=
  <["username" := VString "hugo"]> (<["email" := VString "e@x.com"]> ∅).

(** An object with a number where the schema has a String path, and one
    with a text where it has a Number path. *)
Definition hugo_zero : Doc :=
  <["username" := VString "hugo"]> (<["email" := VNumber (Num 0)]> ∅).

Definition hugo_often : Doc :=
  <["attempts" := VString "often"]> hugo.

(** ** Laws of the environment used as hypotheses *)


(** A query for a value that a written document holds under [field] finds
    a record in the store the write produced. *)
Definition read_your_writes (rt : Runtime) (o : Options) : Prop :=
  forall (s s' : Store rt) (d : Doc) (field : string) (v : value),
    persist rt s d = inr s' -> d !! field = Some v ->
    exists found,
      findOne rt s' field (Some v) (selectFields o) (populateFields o) =
        inr (Some found).

(** Lower-casing a lower-cased string changes nothing. *)
Definition lower_idempotent (rt : Runtime) : Prop :=
  forall s : string, toLowerCase rt (toLowerCase rt s) = toLowerCase rt s.

(** ** More concrete inputs *)

(** A record with one recorded failure whose last attempt was at
    1000 ms. *)
Definition failed_once_doc : Doc :=
  <["attempts" := VNumber (Num 1)]> (<["last" := VDate 1000]> ∅).

(** [hugo] with the salt and digest that [mem_runtime] derives for the
    secret ["secret"], and a store that holds this one record. *)
Definition stored_hugo : Doc :=
  <["hash" := VString "secretNaCl"]> (<["salt" := VString "NaCl"]> hugo).

Definition world_with_hugo : World mem_runtime :=
  Build_World mem_runtime ([stored_hugo] : list Doc) 0 0 [].

(** Another candidate, with the email of [hugo] in other letter case. *)
Definition hugo_again : Doc :=
  <["username" := VString "victor"]> (<["email" := VString "E@X.com"]> ∅).

(** [mem_runtime] with a key derivation that always hands an error to its
    callback, and with a store whose queries always fail. *)
Definition failing_kdf_runtime : Runtime := {|
  Store := Store mem_runtime;
  findOne := findOne mem_runtime;
  persist := persist mem_runtime;
  Date_now_at := Date_now_at mem_runtime;
  randomBytes_at := randomBytes_at mem_runtime;
  pbkdf2 := fun _ _ _ _ => inl (ExternalError "pbkdf2");
  Buffer_toString := Buffer_toString mem_runtime;
  toLowerCase := toLowerCase mem_runtime;
  util_format := util_format mem_runtime;
  castPath := castPath mem_runtime
|}.

(** [mem_runtime] with a key derivation that rejects its arguments: the
    call raises, as [crypto.pbkdf2] does when it is given no digest. *)
Definition rejecting_kdf_runtime : Runtime := {|
  Store := Store mem_runtime;
  findOne := findOne mem_runtime;
  persist := persist mem_runtime;
  Date_now_at := Date_now_at mem_runtime;
  randomBytes_at := randomBytes_at mem_runtime;
  pbkdf2 := fun _ _ _ _ => inl (TypeError "The digest argument is required");
  Buffer_toString := Buffer_toString mem_runtime;
  toLowerCase := toLowerCase mem_runtime;
  util_format := util_format mem_runtime;
  castPath := castPath mem_runtime
|}.

Definition failing_store_runtime : Runtime := {|
  Store := Store mem_runtime;
  findOne := fun _ _ _ _ _ => inl (ExternalError "findOne");
  persist := persist mem_runtime;
  Date_now_at := Date_now_at mem_runtime;
  randomBytes_at := randomBytes_at mem_runtime;
  pbkdf2 := pbkdf2 mem_runtime;
  Buffer_toString := Buffer_toString mem_runtime;
  toLowerCase := toLowerCase mem_runtime;
  util_format := util_format mem_runtime;
  castPath := castPath mem_runtime
|}.

(** [passportEmail(schema, {usernameLowerCase: true})] and
    [passportEmail(schema, {saltlen: 0})]. *)
Definition lowercase_options : RawOptions := {|
  raw_saltlen := None; raw_iterations := None; raw_keylen := None;
  raw_encoding := None; raw_usernameField := None; raw_usernameUnique := None;
  raw_emailField := None; raw_usernameLowerCase := Some true;
  raw_hashField := None;
  raw_saltField := None; raw_limitAttempts := None; raw_lastLoginField := None;
  raw_attemptsField := None; raw_interval := None; raw_maxInterval := None;
  raw_incorrectPasswordError := None; raw_incorrectUsernameError := None;
  raw_missingUsernameError := None; raw_missingEmailError := None;
  raw_missingPasswordError := None; raw_userExistsError := None;
  raw_noSaltValueStoredError := None; raw_attemptTooSoonError := None;
  raw_selectFields := None; raw_populateFields := None
|}.

Definition zero_saltlen_options : RawOptions := {|
  raw_saltlen := Some 0; raw_iterations := None; raw_keylen := None;
  raw_encoding := None; raw_usernameField := None; raw_usernameUnique := None;
  raw_emailField := None; raw_usernameLowerCase := None;
  raw_hashField := None;
  raw_saltField := None; raw_limitAttempts := None; raw_lastLoginField := None;
  raw_attemptsField := None; raw_interval := None; raw_maxInterval := None;
  raw_incorrectPasswordError := None; raw_incorrectUsernameError := None;
  raw_missingUsernameError := None; raw_missingEmailError := None;
  raw_missingPasswordError := None; raw_userExistsError := None;
  raw_noSaltValueStoredError := None; raw_attemptTooSoonError := None;
  raw_selectFields := None; raw_populateFields := None
|}.

(** ** Proof automation *)

(** Evaluates the integer under each [IZR] of the goal. *)
Ltac compute_IZR :=
  repeat match goal with
  | |- context [IZR ?z] =>
      lazymatch z with
      | Z0 => fail
      | Zpos _ => fail
      | Zneg _ => fail
      | _ => let z' := eval vm_compute in z in change (IZR z) with (IZR z')
      end
  end.

(** ** Lemmas on the model *)

Section Facts.

Context (rt : Runtime) (o : Options).

Implicit Types (self d : Doc) (w : World rt) (e : Event).

(** *** The delay *)

Lemma Rpower_ln_1 (x : R) : Rpower x (ln (IZR (0 + 1))) = 1%R.
Proof.
  change (0 + 1) with 1. unfold Rpower.
  rewrite ln_1, Rmult_0_l. apply exp_0.
Qed.

(** With no failure recorded the power of line 117 is 1, whatever the
    base. *)
Lemma attemptsInterval_0 :
  attemptsInterval o (Some (VNumber (Num 0))) = PReal 1.
Proof. reflexivity. Qed.

(** With a positive base and a count that is not negative it is the
    real power. *)
Lemma attemptsInterval_real (a : Z) :
  0 < interval o -> 0 <= a ->
  attemptsInterval o (Some (VNumber (Num a))) =
    PReal (Rpower (IZR (interval o)) (ln (IZR (a + 1)))).
Proof.
  intros Hi Ha. unfold attemptsInterval. simpl.
  destruct (Z.ltb_spec (a + 1) 0); [lia|].
  destruct (Z.eqb_spec (a + 1) 0); [lia|].
  destruct (Z.eqb_spec (a + 1) 1) as [H1|H1].
  - assert (a = 0) as -> by lia. by rewrite Rpower_ln_1.
  - destruct (Z.ltb_spec 0 (interval o)); [done|lia].
Qed.

(** The ternary of line 118 is the minimum the specification writes. *)
Lemma calculatedInterval_delay (a : Z) :
  0 < interval o -> 0 <= a ->
  calculatedInterval o (Some (VNumber (Num a))) = delay o a.
Proof.
  intros Hi Ha. unfold calculatedInterval.
  rewrite attemptsInterval_real by done. unfold delay, Rmin.
  case_decide; destruct (Rle_dec _ _); try reflexivity; lra.
Qed.

Lemma calculatedInterval_delay_0 :
  calculatedInterval o (Some (VNumber (Num 0))) = delay o 0.
Proof.
  unfold calculatedInterval. rewrite attemptsInterval_0.
  unfold delay, Rmin. rewrite Rpower_ln_1.
  case_decide; destruct (Rle_dec _ _); try reflexivity; lra.
Qed.

Lemma delay_no_failures : 0 < maxInterval o -> delay o 0 = 1%R.
Proof.
  intros Hm. unfold delay. rewrite Rpower_ln_1.
  apply Rmin_right. apply (IZR_le 1). lia.
Qed.


Lemma tooSoon_spec_0 (now last : Z) self :
  get (attemptsField o) self = Some (VNumber (Num 0)) ->
  get (lastLoginField o) self = Some (VDate last) ->
  tooSoon o now self = bool_decide (IZR (now - last) < delay o 0)%R.
Proof.
  intros Ha Hl. unfold tooSoon. rewrite Ha, Hl. simpl.
  by rewrite calculatedInterval_delay_0.
Qed.

(** *** Counting events *)

Lemma count_events_app (p : Event -> bool) (l1 l2 : list Event) :
  count_events p (l1 ++ l2) = (count_events p l1 + count_events p l2)%nat.
Proof. unfold count_events. by rewrite List.filter_app, length_app. Qed.


(** *** The pre-save hook and [save] *)

Lemma pre_save_other d (f : string) :
  f <> usernameField o -> f <> emailField o ->
  (pre_save rt o d).1 !! f = d !! f.
Proof.
  intros Hu He. unfold pre_save.
  destruct (usernameLowerCase o).
  - destruct (lower rt (d !! usernameField o)) as [e|v]; simpl; [done|].
    destruct (truthy _); simpl.
    + destruct (lower rt _) as [e|v']; simpl.
      * by rewrite lookup_insert_ne.
      * by rewrite !lookup_insert_ne.
    + by rewrite lookup_insert_ne.
  - destruct (truthy _); simpl; [|done].
    destruct (lower rt _) as [e|v']; simpl; [done|].
    by rewrite lookup_insert_ne.
Qed.

Lemma save_doc d w : (save rt o d w).1.1 = (pre_save rt o d).1.
Proof.
  unfold save. destruct (pre_save rt o d) as [d' [e|]]; simpl; [done|].
  by destruct (persist rt (store rt w) d').
Qed.

Lemma save_trace d w : trace rt (save rt o d w).2 = trace rt w ++ [EvSave d].
Proof.
  unfold save. destruct (pre_save rt o d) as [d' [e|]]; simpl; [done|].
  by destruct (persist rt (store rt w) d').
Qed.



Lemma save_result_ok d w :
  (save rt o d w).1.2 = None ->
  (pre_save rt o d).2 = None /\
  exists s, persist rt (store rt w) (pre_save rt o d).1 = inr s /\
            store rt (save rt o d w).2 = s.
Proof.
  unfold save. destruct (pre_save rt o d) as [d' [e|]]; simpl; [done|].
  destruct (persist rt (store rt w) d') as [e|s]; simpl; [done|]. eauto.
Qed.

(** *** The branches of [methods_authenticate] *)

Lemma auth_throttled (pw : string) self w :
  limitAttempts o = true ->
  tooSoon o (Date_now_at rt (ticks rt w)) self = true ->
  methods_authenticate rt o pw self w =
    let w1 := (Date_now rt w).2 in
    let s := save rt o (set (lastLoginField o)
                          (VDate (Date_now_at rt (S (ticks rt w)))) self)
               (Date_now rt w1).2 in
    ((s.1.1, CbFalse (tooSoon_info o)), s.2).
Proof.
  intros Hl Ht. unfold methods_authenticate, bind, ret. rewrite Hl. simpl.
  rewrite Ht. simpl. by destruct (save _ _ _ _) as [[? ?] ?].
Qed.

Lemma auth_no_salt (pw : string) self w :
  not_throttled rt o self w ->
  truthy (get (saltField o) self) = false ->
  methods_authenticate rt o pw self w =
    ((self, CbFalse (noSalt_info o)), after_gate rt o w).
Proof.
  intros Ht Hs. unfold methods_authenticate, after_gate, bind, ret.
  unfold not_throttled in Ht.
  destruct (limitAttempts o); simpl.
  - rewrite Ht by done. by rewrite Hs.
  - by rewrite Hs.
Qed.

Lemma auth_match (pw salt : string) (hashRaw : Buffer) self w :
  not_throttled rt o self w ->
  get (saltField o) self = Some (VString salt) -> salt <> "" ->
  pbkdf2 rt pw salt (iterations o) (keylen o) = inr hashRaw ->
  get (hashField o) self =
    Some (VString (Buffer_toString rt (Buffer_binary hashRaw) (encoding o))) ->
  methods_authenticate rt o pw self w =
    let w1 := emit rt (EvPbkdf2 pw salt (iterations o) (keylen o))
                (after_gate rt o w) in
    if limitAttempts o then
      let s := save rt o
                 (set (attemptsField o) (VNumber (Num 0))
                    (set (lastLoginField o)
                       (VDate (Date_now_at rt (ticks rt w1))) self))
                 (Date_now rt w1).2 in
      ((s.1.1, CbUser s.1.1), s.2)
    else ((self, CbUser self), w1).
Proof.
  intros Ht Hs Hne Hp Hh. unfold methods_authenticate, after_gate, bind, ret.
  unfold not_throttled in Ht.
  assert (truthy (get (saltField o) self) = true) as Htr.
  { rewrite Hs. simpl. apply negb_true_iff, String.eqb_neq. done. }
  destruct (limitAttempts o); simpl.
  - rewrite Ht by done. rewrite Htr, Hs. simpl. unfold crypto_pbkdf2.
    rewrite Hp. rewrite decide_True by done. simpl.
    by destruct (save _ _ _ _) as [[? ?] ?].
  - rewrite Htr, Hs. simpl. unfold crypto_pbkdf2.
    rewrite Hp. by rewrite decide_True by done.
Qed.

Lemma auth_mismatch (pw salt : string) (hashRaw : Buffer) self w :
  not_throttled rt o self w ->
  get (saltField o) self = Some (VString salt) -> salt <> "" ->
  pbkdf2 rt pw salt (iterations o) (keylen o) = inr hashRaw ->
  get (hashField o) self <>
    Some (VString (Buffer_toString rt (Buffer_binary hashRaw) (encoding o))) ->
  methods_authenticate rt o pw self w =
    let w1 := emit rt (EvPbkdf2 pw salt (iterations o) (keylen o))
                (after_gate rt o w) in
    if limitAttempts o then
      let self1 := set (lastLoginField o)
                     (VDate (Date_now_at rt (ticks rt w1))) self in
      match plus_one (get (attemptsField o) self1) with
      | Num n =>
          let s := save rt o (set (attemptsField o) (VNumber (Num n)) self1)
                     (Date_now rt w1).2 in
          ((s.1.1, CbFalse (incorrectPassword_info o)), s.2)
      | NaN =>
          ((self1, Thrown (ValidationError {[attemptsField o]})),
           emit rt (EvSave self1) (Date_now rt w1).2)
      end
    else ((self, CbFalse (incorrectPassword_info o)), w1).
Proof.
  intros Ht Hs Hne Hp Hh. unfold methods_authenticate, after_gate, bind, ret.
  unfold not_throttled in Ht.
  assert (truthy (get (saltField o) self) = true) as Htr.
  { rewrite Hs. simpl. apply negb_true_iff, String.eqb_neq. done. }
  destruct (limitAttempts o); simpl.
  - rewrite Ht by done. rewrite Htr, Hs. simpl. unfold crypto_pbkdf2.
    rewrite Hp. rewrite decide_False by done. simpl.
    destruct (plus_one _); [reflexivity|].
    by destruct (save _ _ _ _) as [[? ?] ?].
  - rewrite Htr, Hs. simpl. unfold crypto_pbkdf2.
    rewrite Hp. by rewrite decide_False by done.
Qed.


Lemma open_not_throttled_0 (last : Z) self w :
  get (attemptsField o) self = Some (VNumber (Num 0)) ->
  get (lastLoginField o) self = Some (VDate last) ->
  (delay o 0 <= IZR (Date_now_at rt (ticks rt w) - last))%R ->
  not_throttled rt o self w.
Proof.
  intros Ha Hl Hd _. rewrite (tooSoon_spec_0 _ last) by done.
  apply bool_decide_eq_false. lra.
Qed.

End Facts.

Section EntryFacts.

Context (rt : Runtime) (o : Options).

Implicit Types (self d : Doc) (w : World rt).

(** *** Lookups *)

Lemma exec_findOne_world (field : string) (v : option value) w :
  (exec_findOne rt o field v w).2 = emit rt (EvFindOne field v) w.
Proof. reflexivity. Qed.

Lemma exec_findOne_result (field : string) (v : option value) w :
  (exec_findOne rt o field v w).1 =
    match findOne rt (store rt w) field v (selectFields o) (populateFields o)
    with
    | inl e => Failed e
    | inr (Some user) => Found user
    | inr None => Missing
    end.
Proof. reflexivity. Qed.

Lemma findByUsername_string (u : option string) w :
  statics_findByUsername rt o (VString <$> u) w =
    exec_findOne rt o (usernameField o)
      ((fun u => VString (if usernameLowerCase o then toLowerCase rt u
                          else u)) <$> u) w.
Proof.
  unfold statics_findByUsername.
  destruct u as [u|]; simpl; [|done]. by destruct (usernameLowerCase o).
Qed.

Lemma findByEmail_string (u : option string) w :
  statics_findByEmail rt o (VString <$> u) w =
    exec_findOne rt o (emailField o)
      ((fun u => VString (toLowerCase rt u)) <$> u) w.
Proof. by destruct u. Qed.

(** A lookup never writes, and leaves the store as it is. *)
Lemma findByUsername_frame (v : option value) w :
  let l := statics_findByUsername rt o v w in
  store rt l.2 = store rt w /\
  store_writes rt l.2 = store_writes rt w /\
  hash_computations rt l.2 = hash_computations rt w /\
  draws rt l.2 = draws rt w.
Proof.
  unfold statics_findByUsername, store_writes, hash_computations.
  destruct v as [v|]; [destruct (usernameLowerCase o);
                       [destruct (lower rt (Some v))|]|];
    simpl; rewrite ?count_events_app; unfold count_events; simpl;
    split_and!; try done; lia.
Qed.

Lemma findByEmail_frame (v : option value) w :
  let l := statics_findByEmail rt o v w in
  store rt l.2 = store rt w /\
  store_writes rt l.2 = store_writes rt w /\
  hash_computations rt l.2 = hash_computations rt w /\
  draws rt l.2 = draws rt w.
Proof.
  unfold statics_findByEmail, store_writes, hash_computations.
  destruct v as [v|]; [destruct (lower rt (Some v))|];
    simpl; rewrite ?count_events_app; unfold count_events; simpl;
    split_and!; try done; lia.
Qed.

(** [construct] and [instantiate] only read the clock. *)
Lemma instantiate_frame (candidate : Candidate) w :
  let made := instantiate rt o candidate w in
  store rt made.2 = store rt w /\
  store_reads rt made.2 = store_reads rt w /\
  store_writes rt made.2 = store_writes rt w.
Proof.
  unfold instantiate, construct, store_reads, store_writes, bind, ret.
  destruct candidate as [obj|doc]; simpl; [|done].
  destruct (limitAttempts o); simpl; [|done].
  destruct (get (lastLoginField o) _); simpl; [done|].
  rewrite !count_events_app. unfold count_events. simpl.
  split_and!; try done; lia.
Qed.



Lemma save_reads d w :
  store_reads rt (save rt o d w).2 = store_reads rt w.
Proof.
  unfold store_reads. rewrite save_trace, count_events_app.
  unfold count_events. simpl. lia.
Qed.

Lemma bind_proj {A B : Type} (m : M rt A) (k : A -> M rt B) w :
  bind rt m k w = k (m w).1 (m w).2.
Proof. unfold bind. by destruct (m w). Qed.

(** Per-record authentication never queries the store. *)
Lemma auth_reads (pw : string) self w :
  store_reads rt (methods_authenticate rt o pw self w).2 = store_reads rt w.
Proof.
  unfold methods_authenticate. rewrite bind_proj.
  destruct (limitAttempts o).
  - rewrite bind_proj. unfold ret at 1. simpl.
    destruct (tooSoon o _ self).
    + rewrite !bind_proj. unfold ret. simpl. rewrite save_reads.
      unfold store_reads. simpl. rewrite !count_events_app.
      unfold count_events. simpl. lia.
    + simpl. destruct (truthy (get (saltField o) self)); simpl.
      * destruct (get (saltField o) self) as [[salt|n|ms]|];
          rewrite ?bind_proj; unfold ret, crypto_pbkdf2; simpl;
          try (unfold store_reads; simpl; rewrite !count_events_app;
               unfold count_events; simpl; lia).
        destruct (pbkdf2 rt pw salt (iterations o) (keylen o)); simpl.
        -- unfold store_reads; simpl; rewrite !count_events_app;
             unfold count_events; simpl; lia.
        -- case_decide; rewrite bind_proj; simpl;
             [|destruct (plus_one _)]; rewrite !bind_proj; simpl;
             rewrite ?save_reads; unfold store_reads; simpl;
             rewrite !count_events_app; unfold count_events; simpl; lia.
      * unfold store_reads; simpl; rewrite !count_events_app;
          unfold count_events; simpl; lia.
  - unfold ret at 1. simpl.
    destruct (truthy (get (saltField o) self)); simpl; [|done].
    destruct (get (saltField o) self) as [[salt|n|ms]|];
      rewrite ?bind_proj; unfold ret, crypto_pbkdf2; simpl; try done.
    destruct (pbkdf2 rt pw salt (iterations o) (keylen o)); simpl.
    + unfold store_reads; simpl; rewrite !count_events_app;
        unfold count_events; simpl; lia.
    + case_decide; simpl; unfold store_reads; simpl;
        rewrite !count_events_app; unfold count_events; simpl; lia.
Qed.

(** Per-record authentication only appends to the trace. *)
Lemma auth_trace_extends (pw : string) w (user : Doc) w0 (l : list Event) :
  trace rt w0 = trace rt w ++ l ->
  exists rest,
    trace rt (methods_authenticate rt o pw user w0).2 =
      trace rt w ++ l ++ rest.
Proof.
  intros Hw0. unfold methods_authenticate. rewrite bind_proj.
  destruct (limitAttempts o).
  - rewrite bind_proj. unfold ret at 1. simpl.
    destruct (tooSoon o _ user).
    + rewrite !bind_proj. unfold ret. simpl. rewrite save_trace. simpl.
      rewrite Hw0. rewrite <- !app_assoc. eauto.
    + simpl. destruct (truthy (get (saltField o) user)); simpl.
      * destruct (get (saltField o) user) as [[salt|n|ms]|];
          rewrite ?bind_proj; unfold ret, crypto_pbkdf2; simpl;
          try (rewrite Hw0, <- !app_assoc; by eauto).
        destruct (pbkdf2 rt pw salt (iterations o) (keylen o)); simpl.
        -- rewrite Hw0, <- !app_assoc; by eauto.
        -- case_decide; rewrite bind_proj; simpl;
             [|destruct (plus_one _)]; rewrite !bind_proj; simpl;
             rewrite ?save_trace; simpl; rewrite Hw0, <- !app_assoc;
             by eauto.
      * rewrite Hw0, <- !app_assoc; by eauto.
  - unfold ret at 1. simpl.
    destruct (truthy (get (saltField o) user)); simpl.
    + destruct (get (saltField o) user) as [[salt|n|ms]|];
        rewrite ?bind_proj; unfold ret, crypto_pbkdf2; simpl;
        try (exists []; by rewrite Hw0, app_nil_r).
      destruct (pbkdf2 rt pw salt (iterations o) (keylen o)); simpl.
      * rewrite Hw0, <- !app_assoc; by eauto.
      * case_decide; simpl; rewrite Hw0, <- !app_assoc; by eauto.
    + exists []. by rewrite Hw0, app_nil_r.
Qed.



(** The three ways [methods_setPassword] can run. *)
Lemma setPassword_cases (password : option string) self w :
  let out := methods_setPassword rt o password self w in
  ((password = None \/ password = Some "") /\
   out = ((self, Some (BadRequestError "missingPassword"
                         (missingPasswordError o))), w)) \/
  (exists pw err,
      password = Some pw /\ pw <> "" /\ out.1 = (self, Some err) /\
      (randomBytes_at rt (draws rt w) (saltlen o) = inl err \/
       exists buf,
         randomBytes_at rt (draws rt w) (saltlen o) = inr buf /\
         pbkdf2 rt pw (Buffer_toString rt buf (encoding o)) (iterations o)
           (keylen o) = inl err)) \/
  (exists pw buf hashRaw,
      password = Some pw /\ pw <> "" /\
      randomBytes_at rt (draws rt w) (saltlen o) = inr buf /\
      pbkdf2 rt pw (Buffer_toString rt buf (encoding o)) (iterations o)
        (keylen o) = inr hashRaw /\
      out.1 =
        (set (saltField o) (VString (Buffer_toString rt buf (encoding o)))
           (set (hashField o)
              (VString (Buffer_toString rt (Buffer_binary hashRaw)
                          (encoding o))) self),
         None)).
Proof.
  intros out. subst out. unfold methods_setPassword.
  destruct password as [[|c pw]|]; [left; split; [tauto|done]| |
                                    left; split; [tauto|done]].
  right. rewrite bind_proj. unfold crypto_randomBytes at 1 2. simpl.
  destruct (randomBytes_at rt (draws rt w) (saltlen o)) as [err|buf] eqn:Hr.
  - left. exists (String c pw), err. split_and!; try done. by left.
  - rewrite bind_proj. unfold crypto_pbkdf2 at 1 2. simpl.
    destruct (pbkdf2 rt (String c pw) _ _ _) as [err|hashRaw] eqn:Hp.
    + left. exists (String c pw), err. split_and!; try done.
      right. by exists buf.
    + right. exists (String c pw), buf, hashRaw. done.
Qed.

(** Paths other than hash and salt keep their values. *)
Lemma setPassword_other (password : option string) self w (field : string) :
  field <> hashField o -> field <> saltField o ->
  get field (methods_setPassword rt o password self w).1.1 = get field self.
Proof.
  intros Hh Hs.
  destruct (setPassword_cases password self w)
    as [[_ H]|[(pw & err & _ & _ & H & _)|
               (pw & buf & raw & _ & _ & _ & _ & H)]];
    rewrite H; simpl; try done.
  unfold get, set. by rewrite !lookup_insert_ne.
Qed.

(** [register], check by check. *)
Lemma register_cases (candidate : Candidate) (password : option string) w :
  let made := instantiate rt o candidate w in
  let user := made.1 in
  let look1 :=
    statics_findByUsername rt o (get (usernameField o) user) made.2 in
  let look2 := statics_findByEmail rt o (get (emailField o) user) look1.2 in
  let setp := methods_setPassword rt o password user look2.2 in
  let saved := save rt o setp.1.1 setp.2 in
  statics_register rt o candidate password w =
    if negb (truthy (get (usernameField o) user)) then
      ((user, CbError (missingUsername_error rt o)), made.2)
    else if negb (truthy (get (emailField o) user)) then
      ((user, CbError (missingEmail_error o)), made.2)
    else
      match look1.1 with
      | Raised e => ((user, Thrown e), look1.2)
      | Failed err => ((user, CbError err), look1.2)
      | Found _ =>
          ((user, CbError (usernameExists_error rt o user)), look1.2)
      | Missing =>
          match look2.1 with
          | Raised e => ((user, Thrown e), look2.2)
          | Failed err => ((user, CbError err), look2.2)
          | Found _ =>
              ((user, CbError (emailExists_error rt o user)), look2.2)
          | Missing =>
              match setp.1.2 with
              | Some err =>
                  ((setp.1.1, if raised_by_call err then Thrown err
                              else CbError err), setp.2)
              | None =>
                  if decide (cast_failures rt candidate = ∅) then
                    match saved.1.2 with
                    | Some err => ((saved.1.1, CbError err), saved.2)
                    | None => ((saved.1.1, CbUser saved.1.1), saved.2)
                    end
                  else
                    ((setp.1.1,
                      CbError (ValidationError (cast_failures rt candidate))),
                     emit rt (EvSave setp.1.1) setp.2)
              end
          end
      end.
Proof.
  intros made user look1 look2 setp saved.
  unfold statics_register. rewrite bind_proj.
  fold made user.
  destruct (truthy (get (usernameField o) user)); simpl; [|reflexivity].
  destruct (truthy (get (emailField o) user)); simpl; [|reflexivity].
  rewrite bind_proj. fold look1.
  destruct look1.1; try reflexivity.
  rewrite bind_proj. fold look2.
  destruct look2.1; try reflexivity.
  rewrite bind_proj. fold setp.
  destruct setp.1.2; try reflexivity.
  case_decide; [|reflexivity].
  rewrite bind_proj. fold saved.
  destruct saved.1.2; reflexivity.
Qed.

(** What a successful [register] went through. *)
Lemma register_success (candidate : Candidate) (password : option string) w
    (principal : Doc) :
  let made := instantiate rt o candidate w in
  let user := made.1 in
  let look1 :=
    statics_findByUsername rt o (get (usernameField o) user) made.2 in
  let look2 := statics_findByEmail rt o (get (emailField o) user) look1.2 in
  let setp := methods_setPassword rt o password user look2.2 in
  let saved := save rt o setp.1.1 setp.2 in
  let out := statics_register rt o candidate password w in
  out.1.2 = CbUser principal ->
  cast_failures rt candidate = ∅ /\
  truthy (get (usernameField o) user) = true /\
  truthy (get (emailField o) user) = true /\
  setp.1.2 = None /\ saved.1.2 = None /\
  principal = saved.1.1 /\ out.2 = saved.2.
Proof.
  intros made user look1 look2 setp saved out. subst out.
  rewrite register_cases. fold made user look1 look2 setp saved.
  destruct (truthy (get (usernameField o) user)); simpl; [|discriminate].
  destruct (truthy (get (emailField o) user)); simpl; [|discriminate].
  destruct look1.1; simpl; try discriminate.
  destruct look2.1; simpl; try discriminate.
  destruct setp.1.2 as [err|]; simpl;
    [destruct (raised_by_call err); discriminate|].
  case_decide; [|discriminate].
  destruct saved.1.2; simpl; try discriminate.
  intros [= <-]. done.
Qed.

End EntryFacts.

(** ** Per-record authentication with throttling enabled *)

Section Throttling.

Context (rt : Runtime) (o : Options).

Implicit Types (self : Doc) (w : World rt).




End Throttling.

(** ** Per-record authentication: hashing, missing salt, no throttling *)

Section Credentials.

Context (rt : Runtime) (o : Options).

Implicit Types (self : Doc) (w : World rt).

(** C1, as amended.  For every non-empty secret [s]: when the random
    source and the key derivation succeed, [setPassword] stores the
    encoded salt and the encoded digest of [s] under that salt.  An
    attempt with [s] on the record it leaves that passes the throttle
    test of line 120, as every attempt does with throttling disabled,
    derives one key, the stored digest again, and returns the
    principal: the record itself with throttling disabled, the record
    with its throttle state reset as saved otherwise.  An attempt with
    [s] that fails the throttle test is answered [(false, TooSoon)].
    Under throttling the record is one whose throttle paths hold no
    text. *)
Theorem C1_set_then_authenticate (s : string) self w (buf hashRaw : Buffer)
    w2 :
  s <> "" ->
  hashField o <> saltField o ->
  randomBytes_at rt (draws rt w) (saltlen o) = inr buf ->
  let salt := Buffer_toString rt buf (encoding o) in
  salt <> "" ->
  pbkdf2 rt s salt (iterations o) (keylen o) = inr hashRaw ->
  let stored := methods_setPassword rt o (Some s) self w in
  throttle_state_typed o stored.1.1 ->
  let attempt := methods_authenticate rt o s stored.1.1 w2 in
  stored.1.2 = None /\
  get (saltField o) stored.1.1 = Some (VString salt) /\
  get (hashField o) stored.1.1 =
    Some (VString (Buffer_toString rt (Buffer_binary hashRaw) (encoding o))) /\
  (not_throttled rt o stored.1.1 w2 ->
     attempt.1.2 = CbUser attempt.1.1 /\
     hash_computations rt attempt.2 = S (hash_computations rt w2) /\
     (limitAttempts o = false -> attempt.1.1 = stored.1.1) /\
     (limitAttempts o = true ->
      attempt.1.1 =
        (pre_save rt o
           (set (attemptsField o) (VNumber (Num 0))
              (set (lastLoginField o)
                 (VDate (Date_now_at rt (S (ticks rt w2)))) stored.1.1))).1)) /\
  (limitAttempts o = true ->
   tooSoon o (Date_now_at rt (ticks rt w2)) stored.1.1 = true ->
     attempt.1.2 = CbFalse (tooSoon_info o) /\
     hash_computations rt attempt.2 = hash_computations rt w2).
Proof.
  intros Hs Hfields Hrand salt Hsalt Hkdf stored _ attempt.
  assert (stored.1.2 = None /\
          get (saltField o) stored.1.1 = Some (VString salt) /\
          get (hashField o) stored.1.1 =
            Some (VString (Buffer_toString rt (Buffer_binary hashRaw)
                             (encoding o)))) as (H1 & H2 & H3).
  { subst stored. unfold methods_setPassword.
    destruct s as [|c s']; [done|].
    unfold bind, ret, crypto_randomBytes, crypto_pbkdf2. rewrite Hrand.
    fold salt. rewrite Hkdf. simpl. unfold get, set. repeat split.
    - apply lookup_insert_eq.
    - rewrite lookup_insert_ne by done. apply lookup_insert_eq. }
  split_and!; try done.
  - intros Hopen. subst attempt.
    rewrite (auth_match rt o s salt hashRaw) by done.
    unfold after_gate, hash_computations.
    destruct (limitAttempts o); simpl.
    + rewrite save_doc, save_trace. simpl.
      rewrite !count_events_app. unfold count_events. simpl.
      split_and!; try done; lia.
    + rewrite count_events_app. unfold count_events. simpl.
      split_and!; try done; lia.
  - intros Hl Hsoon. subst attempt.
    rewrite (auth_throttled rt o) by done. simpl.
    unfold hash_computations. rewrite save_trace. simpl.
    rewrite !count_events_app. unfold count_events. simpl.
    split; [done|lia].
Qed.

(** C7 fails on the code.  A record without a salt whose attempt passes
    the throttle test is answered [(false, {message:
    noSaltValueStoredError})]: like the answer to a throttled attempt
    (lines 123-125), and unlike the other two failures (lines 157 and
    187), the answer of lines 131-133 carries no reason code, so a
    caller tells it from [TooSoon] by the configured message texts
    alone.  When the two texts are the same, a record without a salt
    and a throttled record, neither holding a text under its throttle
    paths, get the same answer. *)
Theorem C7_no_salt_answered_as_too_soon (password : string) self
    (throttled : Doc) w w' :
  limitAttempts o = true ->
  noSaltValueStoredError o = attemptTooSoonError o ->
  throttle_state_typed o self -> throttle_state_typed o throttled ->
  not_throttled rt o self w ->
  truthy (get (saltField o) self) = false ->
  tooSoon o (Date_now_at rt (ticks rt w')) throttled = true ->
  (methods_authenticate rt o password self w).1.2 =
    CbFalse {| result := None; message := noSaltValueStoredError o |} /\
  (methods_authenticate rt o password throttled w').1.2 =
    CbFalse {| result := None; message := attemptTooSoonError o |} /\
  (methods_authenticate rt o password self w).1.2 =
    (methods_authenticate rt o password throttled w').1.2.
Proof.
  intros Hl Hsame _ _ Hopen Hsalt Hsoon.
  rewrite (auth_no_salt rt o) by done.
  rewrite (auth_throttled rt o) by done. simpl.
  unfold noSalt_info, tooSoon_info. rewrite Hsame. done.
Qed.

(** C9.  With throttling disabled, [authenticate] leaves the document as
    it found it whatever the outcome, and neither saves nor reads the
    clock; a principal it returns is that unchanged document. *)
Theorem C9_no_throttling_no_mutation (password : string) self w :
  limitAttempts o = false ->
  let out := methods_authenticate rt o password self w in
  out.1.1 = self /\
  store rt out.2 = store rt w /\
  store_writes rt out.2 = store_writes rt w /\
  ticks rt out.2 = ticks rt w /\
  (forall user, out.1.2 = CbUser user -> user = self).
Proof.
  intros Hl out. subst out.
  unfold methods_authenticate, bind, ret. rewrite Hl. simpl.
  destruct (truthy (get (saltField o) self)); simpl; [|done].
  destruct (get (saltField o) self) as [[salt|n|ms]|]; simpl; try done.
  unfold crypto_pbkdf2, store_writes.
  destruct (pbkdf2 rt password salt (iterations o) (keylen o)) as [e|raw];
    simpl.
  - rewrite count_events_app. unfold count_events. simpl.
    split_and!; try done; try lia.
    intros user. by destruct (raised_by_call e).
  - case_decide; simpl; rewrite count_events_app; unfold count_events;
      simpl; split_and!; try done; try lia; congruence.
Qed.

(** C10.  With throttling enabled and a positive cap, a record with no
    recorded failure has a delay of [interval ^ ln 1 = 1] millisecond: an
    attempt whose clock reading is less than one millisecond past
    [lastAttemptAt] is answered [TooSoon].  A document just built by the
    model constructor has [failureCount = 0] and the construction time as
    [lastAttemptAt], so it is rejected in the same way. *)
Theorem C10_first_millisecond (password : string) self w (lastAttemptAt : Z) :
  limitAttempts o = true ->
  0 < maxInterval o ->
  get (attemptsField o) self = Some (VNumber (Num 0)) ->
  get (lastLoginField o) self = Some (VDate lastAttemptAt) ->
  calculatedInterval o (Some (VNumber (Num 0))) = 1%R /\
  delay o 0 = 1%R /\
  (Date_now_at rt (ticks rt w) - lastAttemptAt < 1 ->
   (methods_authenticate rt o password self w).1.2 =
     CbFalse (tooSoon_info o)) /\
  (forall (obj : Doc) (w0 : World rt),
      attemptsField o <> lastLoginField o ->
      get (attemptsField o) obj = None ->
      get (lastLoginField o) obj = None ->
      let fresh := (construct rt o obj w0).1 in
      get (attemptsField o) fresh = Some (VNumber (Num 0)) /\
      get (lastLoginField o) fresh =
        Some (VDate (Date_now_at rt (ticks rt w0))) /\
      (Date_now_at rt (ticks rt w) - Date_now_at rt (ticks rt w0) < 1 ->
       (methods_authenticate rt o password fresh w).1.2 =
         CbFalse (tooSoon_info o))).
Proof.
  intros Hl Hmax Ha Hlast.
  assert (forall d t, get (attemptsField o) d = Some (VNumber (Num 0)) ->
            get (lastLoginField o) d = Some (VDate t) ->
            Date_now_at rt (ticks rt w) - t < 1 ->
            (methods_authenticate rt o password d w).1.2 =
              CbFalse (tooSoon_info o)) as Hreject.
  { intros d t Hd1 Hd2 Hlt.
    rewrite (auth_throttled rt o); [done|done|].
    rewrite (tooSoon_spec_0 o _ t) by done.
    apply bool_decide_eq_true. rewrite delay_no_failures by done.
    by apply (IZR_lt _ 1). }
  split; [|split; [|split]].
  - rewrite calculatedInterval_delay_0. by apply delay_no_failures.
  - by apply delay_no_failures.
  - by apply Hreject.
  - intros obj w0 Hne Hoa Hol fresh.
    assert (get (attemptsField o) fresh = Some (VNumber (Num 0)) /\
            get (lastLoginField o) fresh =
              Some (VDate (Date_now_at rt (ticks rt w0)))) as [Hf1 Hf2].
    { subst fresh. unfold construct. rewrite Hl.
      unfold get, set in *. rewrite !map_lookup_imap, Hoa. simpl.
      rewrite lookup_insert_ne by done.
      rewrite map_lookup_imap, Hol. unfold bind, ret. simpl.
      rewrite lookup_insert_ne by done.
      rewrite !lookup_insert_eq. done. }
    repeat split; try done. by apply Hreject.
Qed.

End Credentials.

(** ** The entry points: identifier resolution and registration *)

Section EntryPoints.

Context (rt : Runtime) (o : Options).

Implicit Types (w : World rt).

(** C5, as amended.  For an identifier that is a string or [undefined],
    [authenticate(identifierOrAlternate, secret)] starts with the lookup
    by primary identifier.  Unless that lookup answers "no record", it
    is the only query made: a record found is handed to the per-record
    procedure, a store error is returned.  When it answers "no record"
    the lookup by secondary identifier follows; and when that one
    answers "no record" too, the result is [(false, UnknownIdentifier)],
    the two lookups are the only calls made, the store is unchanged, and
    nothing is saved or hashed. *)
Theorem C5_identifier_resolution (identifier : option string)
    (password : string) w :
  let key1 :=
    (fun u => VString (if usernameLowerCase o then toLowerCase rt u else u))
      <$> identifier in
  let key2 := (fun u => VString (toLowerCase rt u)) <$> identifier in
  let primary :=
    findOne rt (store rt w) (usernameField o) key1 (selectFields o)
      (populateFields o) in
  let secondary :=
    findOne rt (store rt w) (emailField o) key2 (selectFields o)
      (populateFields o) in
  let w1 := emit rt (EvFindOne (usernameField o) key1) w in
  let out :=
    statics_authenticate rt o (VString <$> identifier) password w in
  (exists rest,
      trace rt out.2 =
        trace rt w ++ EvFindOne (usernameField o) key1 :: rest) /\
  (primary <> inr None -> store_reads rt out.2 = S (store_reads rt w)) /\
  (forall user, primary = inr (Some user) ->
      let r := methods_authenticate rt o password user w1 in
      out = ((Some r.1.1, r.1.2), r.2)) /\
  (primary = inr None ->
      exists rest,
        trace rt out.2 =
          trace rt w ++ EvFindOne (usernameField o) key1 ::
                        EvFindOne (emailField o) key2 :: rest) /\
  (primary = inr None -> secondary = inr None ->
      out.1 = (None, CbFalse (incorrectUsername_info rt o)) /\
      trace rt out.2 =
        trace rt w ++ [EvFindOne (usernameField o) key1;
                       EvFindOne (emailField o) key2] /\
      store rt out.2 = store rt w /\
      store_writes rt out.2 = store_writes rt w /\
      hash_computations rt out.2 = hash_computations rt w).
Proof.
  intros key1 key2 primary secondary w1 out.
  pose proof (auth_trace_extends rt o password w) as Hext.
  assert (out =
          match primary with
          | inl e => ((None, CbError e), w1)
          | inr (Some user) =>
              let r := methods_authenticate rt o password user w1 in
              ((Some r.1.1, r.1.2), r.2)
          | inr None =>
              let w2 := emit rt (EvFindOne (emailField o) key2) w1 in
              match secondary with
              | inl e => ((None, CbError e), w2)
              | inr (Some user) =>
                  let r := methods_authenticate rt o password user w2 in
                  ((Some r.1.1, r.1.2), r.2)
              | inr None =>
                  ((None, CbFalse (incorrectUsername_info rt o)), w2)
              end
          end) as Hout.
  { subst out. unfold statics_authenticate.
    rewrite bind_proj, findByUsername_string.
    rewrite exec_findOne_world, exec_findOne_result.
    fold key1 primary w1.
    destruct primary as [e|[user|]]; try reflexivity.
    - rewrite bind_proj. reflexivity.
    - rewrite bind_proj, findByEmail_string.
      rewrite exec_findOne_world, exec_findOne_result.
      fold key2. change (store rt w1) with (store rt w). fold secondary.
      destruct secondary as [e|[user|]]; try reflexivity.
      rewrite bind_proj. reflexivity. }
  split_and!.
  - rewrite Hout. destruct primary as [e|[user|]]; simpl.
    + by exists [].
    + destruct (Hext user w1 [EvFindOne (usernameField o) key1] eq_refl)
        as [rest Hr]. exists rest. exact Hr.
    + destruct secondary as [e|[user|]]; simpl.
      * rewrite <- app_assoc. eauto.
      * destruct (Hext user
                    (emit rt (EvFindOne (emailField o) key2) w1)
                    [EvFindOne (usernameField o) key1;
                     EvFindOne (emailField o) key2]) as [rest Hr].
        { simpl. by rewrite <- app_assoc. }
        exists (EvFindOne (emailField o) key2 :: rest). exact Hr.
      * rewrite <- app_assoc. eauto.
  - intros Hp. rewrite Hout. destruct primary as [e|[user|]]; simpl.
    + unfold store_reads. simpl. rewrite count_events_app.
      unfold count_events. simpl. lia.
    + rewrite auth_reads. unfold store_reads. simpl.
      rewrite count_events_app. unfold count_events. simpl. lia.
    + done.
  - intros user Hp. rewrite Hout, Hp. reflexivity.
  - intros Hp. rewrite Hout, Hp. simpl.
    destruct secondary as [e|[user|]]; simpl.
    + exists []. by rewrite <- app_assoc.
    + destruct (Hext user
                  (emit rt (EvFindOne (emailField o) key2) w1)
                  [EvFindOne (usernameField o) key1;
                   EvFindOne (emailField o) key2]) as [rest Hr].
      { simpl. by rewrite <- app_assoc. }
      exists rest. exact Hr.
    + exists []. by rewrite <- app_assoc.
  - intros Hp Hs. rewrite Hout, Hp, Hs. simpl.
    unfold store_writes, hash_computations. simpl.
    rewrite !count_events_app. unfold count_events. simpl.
    split_and!; try done; try lia. by rewrite <- app_assoc.
Qed.


End EntryPoints.

(** ** The statements on concrete inputs *)

Lemma recent_doc_tooSoon (o : Options) :
  attemptsField o = "attempts" -> lastLoginField o = "last" ->
  0 < maxInterval o ->
  tooSoon o (Date_now_at mem_runtime (ticks mem_runtime world0)) recent_doc
  = true.
Proof.
  intros Ha Hl Hm. rewrite (tooSoon_spec_0 o _ 1000).
  - apply bool_decide_eq_true. rewrite delay_no_failures by done.
    compute_IZR. lra.
  - by rewrite Ha.
  - by rewrite Hl.
Qed.

Lemma rested_doc_not_throttled (o : Options) :
  attemptsField o = "attempts" -> lastLoginField o = "last" ->
  0 < maxInterval o ->
  not_throttled mem_runtime o rested_doc world0.
Proof.
  intros Ha Hl Hm. apply (open_not_throttled_0 mem_runtime o 0).
  - by rewrite Ha.
  - by rewrite Hl.
  - rewrite delay_no_failures by done. compute_IZR. lra.
Qed.

(** C1 as stated fails under throttling: the secret just set is rejected
    when the attempt falls within the delay. *)
Lemma C1_counterexample :
  let stored :=
    methods_setPassword mem_runtime throttling_o (Some "secret") recent_doc
      world0 in
  stored.1.2 = None /\
  (methods_authenticate mem_runtime throttling_o "secret" stored.1.1
     stored.2).1.2 = CbFalse (tooSoon_info throttling_o) /\
  ~ exists principal,
      (methods_authenticate mem_runtime throttling_o "secret" stored.1.1
         stored.2).1.2 = CbUser principal.
Proof.
  intros stored.
  assert ((methods_authenticate mem_runtime throttling_o "secret" stored.1.1
             stored.2).1.2 = CbFalse (tooSoon_info throttling_o)) as H.
  { rewrite auth_throttled; [reflexivity|reflexivity|].
    rewrite (tooSoon_spec_0 throttling_o _ 1000).
    - apply bool_decide_eq_true. rewrite delay_no_failures by done.
      compute_IZR. lra.
    - vm_compute. reflexivity.
    - vm_compute. reflexivity. }
  split_and!.
  - vm_compute. reflexivity.
  - exact H.
  - intros [principal Hp]. rewrite H in Hp. discriminate.
Qed.

Lemma C1_witness :
  let stored :=
    methods_setPassword mem_runtime throttling_o (Some "secret") rested_doc
      world0 in
  let attempt :=
    methods_authenticate mem_runtime throttling_o "secret" stored.1.1
      world0 in
  get "salt" stored.1.1 =
    Some (VString (string_of_list_byte (repeat Byte.x2a 32))) /\
  attempt.1.2 = CbUser attempt.1.1 /\
  get "attempts" attempt.1.1 = Some (VNumber (Num 0)).
Proof.
  intros stored attempt.
  destruct (C1_set_then_authenticate mem_runtime throttling_o "secret"
              rested_doc world0 (repeat Byte.x2a 32)
              (list_byte_of_string
                 ("secret" +:+ string_of_list_byte (repeat Byte.x2a 32)))
              world0) as (_ & Hsalt & _ & Hopen & _).
  - discriminate.
  - discriminate.
  - reflexivity.
  - vm_compute. discriminate.
  - reflexivity.
  - intros _. split; intros s Hs; vm_compute in Hs; discriminate.
  - destruct Hopen as (Hp & _ & _ & Hdoc).
    + apply (open_not_throttled_0 mem_runtime throttling_o 0);
        [vm_compute; reflexivity|vm_compute; reflexivity|].
      rewrite delay_no_failures by reflexivity. compute_IZR. lra.
    + fold stored attempt in Hp, Hdoc.
      split_and!; [exact Hsalt|exact Hp|].
      rewrite Hdoc by reflexivity. vm_compute. reflexivity.
Defined.




(** C5 as stated fails for an identifier that is not a string: for the
    number 5, which no record has as its username, the lookup by
    secondary identifier raises a TypeError, [email.toLowerCase] not being
    a function, and no [(false, UnknownIdentifier)] is returned. *)
Lemma C5_counterexample :
  let out :=
    statics_authenticate mem_runtime default_o (Some (VNumber (Num 5)))
      "secret" world0 in
  out.1 = (None, Thrown (TypeError "toLowerCase is not a function")) /\
  out.1.2 <> CbFalse (incorrectUsername_info mem_runtime default_o) /\
  trace mem_runtime out.2 = [EvFindOne "username" (Some (VNumber (Num 5)))].
Proof.
  intros out. assert (out.1 =
    (None, Thrown (TypeError "toLowerCase is not a function"))) as H
    by (vm_compute; reflexivity).
  split_and!.
  - exact H.
  - rewrite H. discriminate.
  - vm_compute. reflexivity.
Qed.

Lemma C5_witness :
  (statics_authenticate mem_runtime default_o (VString <$> Some "nobody")
     "secret" world0).1 =
  (None, CbFalse (incorrectUsername_info mem_runtime default_o)).
Proof.
  destruct (C5_identifier_resolution mem_runtime default_o (Some "nobody")
              "secret" world0) as (_ & _ & _ & _ & H).
  destruct H as (H & _); [reflexivity|reflexivity|exact H].
Defined.


Lemma C7_witness :
  (methods_authenticate mem_runtime same_message_o "secret" rested_doc
     world0).1.2 =
    CbFalse {| result := None; message := "Login failed" |} /\
  (methods_authenticate mem_runtime same_message_o "secret" rested_doc
     world0).1.2 =
  (methods_authenticate mem_runtime same_message_o "secret" recent_doc
     world0).1.2.
Proof.
  destruct (C7_no_salt_answered_as_too_soon mem_runtime same_message_o
              "secret" rested_doc recent_doc world0 world0)
    as (H1 & _ & H3).
  - reflexivity.
  - reflexivity.
  - intros _. split; intros s Hs; vm_compute in Hs; discriminate.
  - intros _. split; intros s Hs; vm_compute in Hs; discriminate.
  - by apply rested_doc_not_throttled.
  - reflexivity.
  - by apply recent_doc_tooSoon.
  - split; [exact H1|exact H3].
Defined.

(** [register] reads the candidate as the constructor cast it: the number
    0 given as email is the text ['0'], which is present, and the record is
    registered with it; a text given as failure count fails its cast, and
    the record is not saved. *)
Lemma register_casts_candidate :
  (exists principal,
      (statics_register mem_runtime default_o (Plain hugo_zero) (Some "pw")
         world0).1.2 = CbUser principal /\
      get "email" principal = Some (VString "0")) /\
  let out :=
    statics_register mem_runtime throttling_o (Plain hugo_often) (Some "pw")
      world0 in
  out.1.2 = CbError (ValidationError {["attempts"]}) /\
  store mem_runtime out.2 = [].
Proof.
  split.
  - eexists. split; vm_compute; reflexivity.
  - split; vm_compute; reflexivity.
Qed.

(** C8 fails on the code: the answers to a record without salt and to a
    throttled record carry no reason code, under the default options as
    under any other. *)
Lemma C8_no_reason_code :
  (methods_authenticate mem_runtime default_o "secret" ∅ world0).1.2 =
    CbFalse {| result := None;
               message := "Authentication not possible. No salt value stored in mongodb collection!" |} /\
  (methods_authenticate mem_runtime throttling_o "secret" recent_doc
     world0).1.2 =
    CbFalse {| result := None;
               message := "Login attempted too soon after previous attempt" |}.
Proof.
  split.
  - vm_compute. reflexivity.
  - rewrite auth_throttled; [reflexivity|reflexivity|].
    by apply recent_doc_tooSoon.
Qed.

Lemma C9_witness :
  (methods_authenticate mem_runtime default_o "wrong" registered_doc
     world0).1.1 = registered_doc.
Proof.
  refine (proj1 (C9_no_throttling_no_mutation mem_runtime default_o "wrong"
                   registered_doc world0 _)).
  reflexivity.
Defined.

Lemma C10_witness :
  calculatedInterval throttling_o (Some (VNumber (Num 0))) = 1%R /\
  (methods_authenticate mem_runtime throttling_o "secret" recent_doc
     world0).1.2 = CbFalse (tooSoon_info throttling_o).
Proof.
  destruct (C10_first_millisecond mem_runtime throttling_o "secret" recent_doc
              world0 1000) as (H1 & _ & H3 & _); try reflexivity.
  split; [exact H1|]. apply H3. reflexivity.
Defined.

(** ** Further properties: the delay of lines 117-118 *)

Section DelayBounds.

Context (o : Options).

Lemma ln_IZR_nonneg (n : Z) : 1 <= n -> (0 <= ln (IZR n))%R.
Proof.
  intros Hn. rewrite <- ln_1.
  destruct (Z.eq_dec n 1) as [->|Hne]; [lra|].
  left. apply ln_increasing; [lra|]. apply (IZR_lt 1). lia.
Qed.

Lemma ln_IZR_le (n m : Z) : 1 <= n -> n <= m -> (ln (IZR n) <= ln (IZR m))%R.
Proof.
  intros Hn Hm. destruct (Z.eq_dec n m) as [->|Hne]; [lra|].
  left. apply ln_increasing; [apply (IZR_lt 0); lia|]. apply IZR_lt. lia.
Qed.

Lemma Rpower_ln_ge_1 (a : Z) :
  1 <= interval o -> 0 <= a ->
  (1 <= Rpower (IZR (interval o)) (ln (IZR (a + 1))))%R.
Proof.
  intros Hi Ha.
  rewrite <- (Rpower_O (IZR (interval o))) at 1
    by (apply (IZR_lt 0); lia).
  apply Rle_Rpower; [apply (IZR_le 1); lia|]. apply ln_IZR_nonneg. lia.
Qed.

(** X1.  With an interval and a cap of at least one millisecond and a
    non-negative failure count, the delay the throttle test compares
    against lies between one millisecond and the cap. *)
Theorem X1_delay_bounds (failureCount : Z) :
  1 <= interval o -> 1 <= maxInterval o -> 0 <= failureCount ->
  (1 <= calculatedInterval o (Some (VNumber (Num failureCount))) <=
   IZR (maxInterval o))%R.
Proof.
  intros Hi Hm Ha. rewrite calculatedInterval_delay by lia. unfold delay.
  pose proof (Rpower_ln_ge_1 failureCount Hi Ha) as Hp.
  pose proof (IZR_le 1 _ Hm) as Hm'.
  split.
  - apply Rmin_glb; lra.
  - apply Rmin_l.
Qed.

(** X2.  With an interval of at least one millisecond the delay never
    shrinks when the failure count grows. *)
Theorem X2_delay_monotone (a b : Z) :
  1 <= interval o -> 0 <= a -> a <= b ->
  (calculatedInterval o (Some (VNumber (Num a))) <=
   calculatedInterval o (Some (VNumber (Num b))))%R.
Proof.
  intros Hi Ha Hab. rewrite !calculatedInterval_delay by lia. unfold delay.
  assert (Rpower (IZR (interval o)) (ln (IZR (a + 1))) <=
          Rpower (IZR (interval o)) (ln (IZR (b + 1))))%R as Hp.
  { apply Rle_Rpower; [apply (IZR_le 1); lia|]. apply ln_IZR_le; lia. }
  apply Rmin_glb; [apply Rmin_l|].
  eapply Rle_trans; [apply Rmin_r|exact Hp].
Qed.


End DelayBounds.

(** ** Further properties: [setPassword] and per-record [authenticate] *)

Section MoreCredentials.

Context (rt : Runtime) (o : Options).

Implicit Types (self : Doc) (w : World rt).

(** The six ways [methods_authenticate] can run. *)
Lemma auth_cases (pw : string) self w :
  let out := methods_authenticate rt o pw self w in
  (limitAttempts o = true /\
   tooSoon o (Date_now_at rt (ticks rt w)) self = true) \/
  (not_throttled rt o self w /\
   truthy (get (saltField o) self) = false /\
   out = ((self, CbFalse (noSalt_info o)), after_gate rt o w)) \/
  (not_throttled rt o self w /\
   truthy (get (saltField o) self) = true /\
   (forall salt, get (saltField o) self <> Some (VString salt)) /\
   out = ((self, Thrown (TypeError "salt must be a string or a buffer")),
          after_gate rt o w)) \/
  (exists salt err,
      not_throttled rt o self w /\
      get (saltField o) self = Some (VString salt) /\ salt <> "" /\
      pbkdf2 rt pw salt (iterations o) (keylen o) = inl err /\
      out = ((self, if raised_by_call err then Thrown err
                    else CbError err),
             emit rt (EvPbkdf2 pw salt (iterations o) (keylen o))
               (after_gate rt o w))) \/
  (exists salt hashRaw,
      not_throttled rt o self w /\
      get (saltField o) self = Some (VString salt) /\ salt <> "" /\
      pbkdf2 rt pw salt (iterations o) (keylen o) = inr hashRaw /\
      get (hashField o) self =
        Some (VString (Buffer_toString rt (Buffer_binary hashRaw)
                         (encoding o)))) \/
  (exists salt hashRaw,
      not_throttled rt o self w /\
      get (saltField o) self = Some (VString salt) /\ salt <> "" /\
      pbkdf2 rt pw salt (iterations o) (keylen o) = inr hashRaw /\
      get (hashField o) self <>
        Some (VString (Buffer_toString rt (Buffer_binary hashRaw)
                         (encoding o)))).
Proof.
  intros out.
  assert (limitAttempts o = true /\
          tooSoon o (Date_now_at rt (ticks rt w)) self = true \/
          not_throttled rt o self w) as [Hth|Hopen].
  { unfold not_throttled. destruct (limitAttempts o); [|right; done].
    destruct (tooSoon o _ self); [left; done|right; done]. }
  { left. exact Hth. }
  right.
  destruct (truthy (get (saltField o) self)) eqn:Htr.
  2:{ left. split_and!; try done. by apply auth_no_salt. }
  right.
  assert ((forall salt, get (saltField o) self <> Some (VString salt)) ->
          out = ((self, Thrown (TypeError "salt must be a string or a buffer")),
                 after_gate rt o w)) as Hthrown.
  { intros Hns. subst out. unfold methods_authenticate, after_gate.
    unfold not_throttled in Hopen. rewrite bind_proj.
    destruct (limitAttempts o).
    - rewrite bind_proj. unfold ret at 1. simpl. rewrite Hopen by done.
      simpl. rewrite Htr. simpl.
      destruct (get (saltField o) self) as [[salt|n|ms]|]; try reflexivity.
      by destruct (Hns salt).
    - unfold ret at 1. simpl. rewrite Htr. simpl.
      destruct (get (saltField o) self) as [[salt|n|ms]|]; try reflexivity.
      by destruct (Hns salt). }
  destruct (get (saltField o) self) as [[salt|n|ms]|] eqn:Hs.
  2,3,4: left; split_and!; [done|done|done|by apply Hthrown].
  right.
  assert (salt <> "") as Hne.
  { intros ->. simpl in Htr. discriminate. }
  destruct (pbkdf2 rt pw salt (iterations o) (keylen o)) as [err|hashRaw]
    eqn:Hp.
  - left. exists salt, err. split_and!; try done.
    subst out. unfold methods_authenticate, after_gate.
    unfold not_throttled in Hopen. rewrite bind_proj.
    destruct (limitAttempts o).
    + rewrite bind_proj. unfold ret at 1. simpl. rewrite Hopen by done.
      simpl. rewrite !Hs, Htr. simpl. rewrite bind_proj.
      unfold crypto_pbkdf2. simpl. rewrite Hp. reflexivity.
    + unfold ret at 1. simpl. rewrite !Hs, Htr. simpl. rewrite bind_proj.
      unfold crypto_pbkdf2. simpl. rewrite Hp. reflexivity.
  - right.
    destruct (decide (get (hashField o) self =
                      Some (VString (Buffer_toString rt
                                       (Buffer_binary hashRaw)
                                       (encoding o))))) as [Hh|Hh].
    + left. exists salt, hashRaw. done.
    + right. exists salt, hashRaw. done.
Qed.

(** A principal comes only out of the matching-digest branch. *)
Lemma principal_digest (password : string) self w (principal : Doc) :
  (methods_authenticate rt o password self w).1.2 = CbUser principal ->
  exists salt hashRaw,
    get (saltField o) self = Some (VString salt) /\ salt <> "" /\
    pbkdf2 rt password salt (iterations o) (keylen o) = inr hashRaw /\
    get (hashField o) self =
      Some (VString (Buffer_toString rt (Buffer_binary hashRaw)
                       (encoding o))).
Proof.
  intros Hout.
  destruct (auth_cases password self w)
    as [[Hl Ht]|[(_ & _ & H)|[(_ & _ & _ & H)|[(s & e & _ & _ & _ & _ & H)|
        [(s & r & H)|(s & r & Hopen & Hs & Hne & Hp & Hh)]]]]].
  - rewrite auth_throttled in Hout by done. discriminate.
  - rewrite H in Hout. discriminate.
  - rewrite H in Hout. discriminate.
  - rewrite H in Hout. simpl in Hout.
    destruct (raised_by_call e); discriminate.
  - exists s, r. tauto.
  - rewrite (auth_mismatch rt o password s r) in Hout by done.
    destruct (limitAttempts o); [|discriminate].
    simpl in Hout. destruct (plus_one _); discriminate.
Qed.

(** X3.  [authenticate] returns a principal only when the record has a
    non-empty salt and the key derived from the given password under
    that salt encodes to the stored digest. *)
Theorem X3_principal_only_on_matching_digest (password : string) self w
    (principal : Doc) :
  (methods_authenticate rt o password self w).1.2 = CbUser principal ->
  exists salt hashRaw,
    get (saltField o) self = Some (VString salt) /\ salt <> "" /\
    pbkdf2 rt password salt (iterations o) (keylen o) = inr hashRaw /\
    get (hashField o) self =
      Some (VString (Buffer_toString rt (Buffer_binary hashRaw)
                       (encoding o))).
Proof. apply principal_digest. Qed.

(** X4.  When the key derivation fails on an attempt that passed the
    throttle test, the attempt ends with that error: handed to the
    callback, or, when [crypto.pbkdf2] raised it from the call itself,
    raised with no call of the callback.  Either way the document is
    unchanged, nothing is saved, and the attempt is not counted as a
    failure, with or without throttling.  Under throttling the record
    is one whose throttle paths hold no text. *)
Theorem X4_kdf_error_is_not_a_failed_attempt (password salt : string)
    (err : Error) self w :
  throttle_state_typed o self ->
  not_throttled rt o self w ->
  get (saltField o) self = Some (VString salt) -> salt <> "" ->
  pbkdf2 rt password salt (iterations o) (keylen o) = inl err ->
  let out := methods_authenticate rt o password self w in
  out.1.1 = self /\
  (raised_by_call err = false -> out.1.2 = CbError err) /\
  (raised_by_call err = true -> out.1.2 = Thrown err) /\
  store rt out.2 = store rt w /\
  store_writes rt out.2 = store_writes rt w /\
  trace rt out.2 =
    trace rt (after_gate rt o w) ++
    [EvPbkdf2 password salt (iterations o) (keylen o)].
Proof.
  intros _ Hopen Hs Hne Hp out.
  destruct (auth_cases password self w)
    as [[Hl Ht]|[(_ & Htr & _)|[(_ & _ & Hns & _)|
        [(s & e & _ & Hs' & _ & Hp' & H)|
        [(s & r & _ & Hs' & _ & Hp' & _)|(s & r & _ & Hs' & _ & Hp' & _)]]]]].
  - unfold not_throttled in Hopen. rewrite Hopen in Ht by done. discriminate.
  - rewrite Hs in Htr. simpl in Htr.
    apply negb_false_iff, String.eqb_eq in Htr. done.
  - by destruct (Hns salt).
  - assert (s = salt) as -> by congruence.
    assert (e = err) as -> by congruence.
    subst out. rewrite H. simpl. unfold after_gate, store_writes.
    split_and!; try done.
    + by intros ->.
    + by intros ->.
    + by destruct (limitAttempts o).
    + destruct (limitAttempts o); simpl; rewrite !count_events_app;
        unfold count_events; simpl; lia.
  - congruence.
  - congruence.
Qed.

(** X5.  With throttling enabled, whatever the outcome of an attempt,
    the failure count of the record afterwards is its old value, zero,
    or its old value plus one; in particular it stays non-negative. *)
Theorem X5_failure_count_steps (password : string) self w (failureCount : Z) :
  limitAttempts o = true ->
  throttle_fields_apart o ->
  get (attemptsField o) self = Some (VNumber (Num failureCount)) ->
  exists n,
    get (attemptsField o) (methods_authenticate rt o password self w).1.1 =
      Some (VNumber (Num n)) /\
    (n = failureCount \/ n = 0 \/ n = failureCount + 1) /\
    (0 <= failureCount -> 0 <= n).
Proof.
  intros Hl (Hal & Hau & Hae & Hlu & Hle) Ha.
  destruct (auth_cases password self w)
    as [[_ Ht]|[(_ & _ & H)|[(_ & _ & _ & H)|[(s & e & _ & _ & _ & _ & H)|
        [(s & r & Hopen & Hs & Hne & Hp & Hh)|
         (s & r & Hopen & Hs & Hne & Hp & Hh)]]]]].
  - rewrite auth_throttled by done. simpl. rewrite save_doc.
    exists failureCount. split_and!; [|tauto|done].
    unfold get. rewrite pre_save_other by done.
    unfold set. by rewrite lookup_insert_ne.
  - rewrite H. exists failureCount. split_and!; [done|tauto|done].
  - rewrite H. exists failureCount. split_and!; [done|tauto|done].
  - rewrite H. exists failureCount. split_and!; [done|tauto|done].
  - rewrite (auth_match rt o password s r) by done. rewrite Hl. simpl.
    rewrite save_doc. exists 0. split_and!; [|tauto|lia].
    unfold get. rewrite pre_save_other by done.
    unfold set. apply lookup_insert_eq.
  - rewrite (auth_mismatch rt o password s r) by done.
    unfold after_gate. rewrite Hl. simpl.
    assert (get (attemptsField o)
              (set (lastLoginField o)
                 (VDate (Date_now_at rt (S (ticks rt w)))) self) =
            Some (VNumber (Num failureCount))) as ->.
    { unfold get, set. by rewrite lookup_insert_ne. }
    simpl. rewrite save_doc. exists (failureCount + 1).
    split_and!; [|tauto|lia].
    unfold get. rewrite pre_save_other by done.
    unfold set. by rewrite lookup_insert_eq.
Qed.


(** X25.  A record without a salt whose attempt passes the throttle
    test is answered [(false, NoCredentialConfigured)], and nothing else
    happens: the document and the store are as they were, nothing is
    saved or hashed, and the clock reading of the throttle test is the
    only call made.  The answer is not the wrong-password answer.
    Under throttling the record is one whose throttle paths hold no
    text. *)
Theorem X25_no_salt_changes_nothing (password : string) self w :
  throttle_state_typed o self ->
  not_throttled rt o self w ->
  truthy (get (saltField o) self) = false ->
  let out := methods_authenticate rt o password self w in
  out.1 = (self, CbFalse (noSalt_info o)) /\
  out.2 = after_gate rt o w /\
  store rt out.2 = store rt w /\
  store_writes rt out.2 = store_writes rt w /\
  hash_computations rt out.2 = hash_computations rt w /\
  out.1.2 <> CbFalse (incorrectPassword_info o).
Proof.
  intros _ Hopen Hsalt out. subst out.
  rewrite (auth_no_salt rt o) by done. simpl.
  unfold after_gate, store_writes, hash_computations.
  split_and!; try done.
  - by destruct (limitAttempts o).
  - destruct (limitAttempts o); simpl; [|done].
    rewrite count_events_app. unfold count_events. simpl. lia.
  - destruct (limitAttempts o); simpl; [|done].
    rewrite count_events_app. unfold count_events. simpl. lia.
Qed.

End MoreCredentials.

(** ** Further properties: consecutive attempts under throttling *)

Section Lockout.

Context (rt : Runtime) (o : Options).

Implicit Types (self : Doc) (w : World rt).





End Lockout.

(** ** Further properties: [setPassword] *)

Section SetPassword.

Context (rt : Runtime) (o : Options).

Implicit Types (self : Doc) (w : World rt).

(** X9.  [setPassword] changes the record all at once or not at all.
    A missing or empty password is refused before any call into the
    environment.  On every error the record is as it was.  On success
    the salt stored is the encoding of the bytes drawn in this call,
    and, hash and salt being different paths, the digest stored is the
    encoding of the key derived from the password under that salt. *)
Theorem X9_setPassword_all_or_nothing (password : option string) self w :
  let out := methods_setPassword rt o password self w in
  (password = None \/ password = Some "" ->
     out = ((self, Some (BadRequestError "missingPassword"
                           (missingPasswordError o))), w)) /\
  (forall err, out.1.2 = Some err -> out.1.1 = self) /\
  (out.1.2 = None ->
     exists pw buf hashRaw,
       password = Some pw /\ pw <> "" /\
       randomBytes_at rt (draws rt w) (saltlen o) = inr buf /\
       pbkdf2 rt pw (Buffer_toString rt buf (encoding o)) (iterations o)
         (keylen o) = inr hashRaw /\
       get (saltField o) out.1.1 =
         Some (VString (Buffer_toString rt buf (encoding o))) /\
       (hashField o <> saltField o ->
        get (hashField o) out.1.1 =
          Some (VString (Buffer_toString rt (Buffer_binary hashRaw)
                           (encoding o))))).
Proof.
  intros out.
  destruct (setPassword_cases rt o password self w)
    as [[Hm H]|[(pw & err & Hpw & Hne & H & _)|
                (pw & buf & raw & Hpw & Hne & Hr & Hp & H)]];
    fold out in H.
  - split_and!.
    + done.
    + intros err _. by rewrite H.
    + rewrite H. discriminate.
  - split_and!.
    + intros [->| ->]; congruence.
    + intros e _. by rewrite H.
    + rewrite H. discriminate.
  - split_and!.
    + intros [->| ->]; congruence.
    + rewrite H. discriminate.
    + intros _. exists pw, buf, raw. rewrite H. simpl.
      split_and!; try done.
      * unfold get, set. apply lookup_insert_eq.
      * intros Hf. unfold get, set. rewrite lookup_insert_ne by done.
        apply lookup_insert_eq.
Qed.

(** X10.  [setPassword] touches nothing but the hash and salt paths: the
    other paths of the record, the throttle state among them, keep
    their values; the store is neither read nor written and the clock
    is not read. *)
Theorem X10_setPassword_frame (password : option string) self w :
  let out := methods_setPassword rt o password self w in
  (forall field, field <> hashField o -> field <> saltField o ->
     get field out.1.1 = get field self) /\
  store rt out.2 = store rt w /\
  ticks rt out.2 = ticks rt w /\
  store_reads rt out.2 = store_reads rt w /\
  store_writes rt out.2 = store_writes rt w.
Proof.
  intros out.
  split; [intros field; apply (setPassword_other rt o)|].
  subst out. unfold methods_setPassword, store_reads, store_writes.
  destruct password as [[|c pw]|]; simpl; try done.
  rewrite bind_proj. unfold crypto_randomBytes at 1 2. simpl.
  destruct (randomBytes_at rt (draws rt w) (saltlen o)); simpl.
  - rewrite !count_events_app. unfold count_events. simpl.
    split_and!; try done; lia.
  - rewrite bind_proj. unfold crypto_pbkdf2 at 1 2. simpl.
    destruct (pbkdf2 rt _ _ _ _); simpl;
      rewrite !count_events_app; unfold count_events; simpl;
      split_and!; try done; lia.
Qed.

(** X11.  After a password change the old password no longer opens the
    record, unless it derives the same digest under the new salt:
    whatever digest the record held before, an attempt with another
    password that passes the throttle test is answered
    [(false, IncorrectSecret)].  Under throttling the record is one
    whose failure count is a number, held under a path of its own, and
    whose last attempt is no text: the attempt is then counted and the
    record saved. *)
Theorem X11_other_password_rejected_after_change (new other : string)
    self w (buf hashNew hashOther : Buffer) w2 :
  new <> "" ->
  hashField o <> saltField o ->
  randomBytes_at rt (draws rt w) (saltlen o) = inr buf ->
  let salt := Buffer_toString rt buf (encoding o) in
  salt <> "" ->
  pbkdf2 rt new salt (iterations o) (keylen o) = inr hashNew ->
  pbkdf2 rt other salt (iterations o) (keylen o) = inr hashOther ->
  Buffer_toString rt (Buffer_binary hashOther) (encoding o) <>
  Buffer_toString rt (Buffer_binary hashNew) (encoding o) ->
  let stored := methods_setPassword rt o (Some new) self w in
  not_throttled rt o stored.1.1 w2 ->
  (limitAttempts o = true ->
   attemptsField o <> lastLoginField o /\
   (exists failureCount,
      get (attemptsField o) stored.1.1 =
        Some (VNumber (Num failureCount))) /\
   forall s, get (lastLoginField o) stored.1.1 <> Some (VString s)) ->
  let out := methods_authenticate rt o other stored.1.1 w2 in
  out.1.2 = CbFalse (incorrectPassword_info o) /\
  hash_computations rt out.2 = S (hash_computations rt w2) /\
  (limitAttempts o = true ->
   store_writes rt out.2 = S (store_writes rt w2)).
Proof.
  intros Hnew Hf Hr salt Hsalt Hpn Hpo Hdiff stored Hopen Hcount out.
  destruct (setPassword_cases rt o (Some new) self w)
    as [[[Hm|Hm] _]|[(pw & err & Hpw & _ & _ & He)|
                (pw & buf' & raw & Hpw & _ & Hr' & Hp' & H)]];
    try congruence.
  - injection Hpw as <-.
    destruct He as [He|(b & Hb & He)]; [congruence|].
    assert (b = buf) as -> by congruence. fold salt in He. congruence.
  - injection Hpw as <-. fold stored in H.
    assert (buf' = buf) as -> by congruence. fold salt in Hp', H.
    assert (raw = hashNew) as -> by congruence.
    assert (get (saltField o) stored.1.1 = Some (VString salt)) as Hs.
    { rewrite H. simpl. unfold get, set. apply lookup_insert_eq. }
    assert (get (hashField o) stored.1.1 =
            Some (VString (Buffer_toString rt (Buffer_binary hashNew)
                             (encoding o)))) as Hh.
    { rewrite H. simpl. unfold get, set. rewrite lookup_insert_ne by done.
      apply lookup_insert_eq. }
    subst out.
    rewrite (auth_mismatch rt o other salt hashOther) by
      (try done; rewrite Hh; congruence).
    unfold after_gate, hash_computations, store_writes.
    destruct (limitAttempts o); simpl.
    + destruct Hcount as (Hne & (n & Hn) & _); [done|].
      assert (get (attemptsField o)
                (set (lastLoginField o)
                   (VDate (Date_now_at rt (S (ticks rt w2)))) stored.1.1) =
              Some (VNumber (Num n))) as ->.
      { unfold get, set. by rewrite lookup_insert_ne. }
      simpl. rewrite save_trace. simpl.
      rewrite !count_events_app. unfold count_events. simpl.
      split_and!; [done|lia|]. intros _. lia.
    + rewrite !count_events_app. unfold count_events. simpl.
      split_and!; [done|lia|done].
Qed.

End SetPassword.

(** ** Further properties: lookups and the [authenticate] entry point *)

Section MoreLookups.

Context (rt : Runtime) (o : Options).

Implicit Types (w : World rt).

(** X12.  Lookups ignore letter case where the plugin lower-cases:
    [findByEmail] always, [findByUsername] under [usernameLowerCase].
    Two identifiers with the same lower-case form run the same query
    and get the same answer.  An [undefined] identifier is passed to the
    query as it is and raises nothing. *)
Theorem X12_lookups_ignore_case (u1 u2 : string) w :
  toLowerCase rt u1 = toLowerCase rt u2 ->
  statics_findByEmail rt o (Some (VString u1)) w =
    statics_findByEmail rt o (Some (VString u2)) w /\
  (usernameLowerCase o = true ->
   statics_findByUsername rt o (Some (VString u1)) w =
     statics_findByUsername rt o (Some (VString u2)) w) /\
  statics_findByUsername rt o None w =
    exec_findOne rt o (usernameField o) None w /\
  statics_findByEmail rt o None w =
    exec_findOne rt o (emailField o) None w.
Proof.
  intros Hl. split_and!; try reflexivity.
  - unfold statics_findByEmail, lower. by rewrite Hl.
  - intros Ho. unfold statics_findByUsername, lower. rewrite Ho.
    by rewrite Hl.
Qed.

(** The entry point, lookup by lookup. *)
Lemma statics_authenticate_cases (identifier : option string)
    (password : string) w :
  let key1 :=
    (fun u => VString (if usernameLowerCase o then toLowerCase rt u else u))
      <$> identifier in
  let key2 := (fun u => VString (toLowerCase rt u)) <$> identifier in
  let w1 := emit rt (EvFindOne (usernameField o) key1) w in
  let w2 := emit rt (EvFindOne (emailField o) key2) w1 in
  statics_authenticate rt o (VString <$> identifier) password w =
    match findOne rt (store rt w) (usernameField o) key1 (selectFields o)
            (populateFields o) with
    | inl e => ((None, CbError e), w1)
    | inr (Some user) =>
        let r := methods_authenticate rt o password user w1 in
        ((Some r.1.1, r.1.2), r.2)
    | inr None =>
        match findOne rt (store rt w) (emailField o) key2 (selectFields o)
                (populateFields o) with
        | inl e => ((None, CbError e), w2)
        | inr (Some user) =>
            let r := methods_authenticate rt o password user w2 in
            ((Some r.1.1, r.1.2), r.2)
        | inr None => ((None, CbFalse (incorrectUsername_info rt o)), w2)
        end
    end.
Proof.
  intros key1 key2 w1 w2. unfold statics_authenticate.
  rewrite bind_proj, findByUsername_string.
  rewrite exec_findOne_world, exec_findOne_result.
  fold key1 w1.
  destruct (findOne rt (store rt w) (usernameField o) key1 _ _)
    as [e|[user|]]; try reflexivity.
  - rewrite bind_proj. reflexivity.
  - rewrite bind_proj, findByEmail_string.
    rewrite exec_findOne_world, exec_findOne_result.
    fold key2 w2. change (store rt w1) with (store rt w).
    destruct (findOne rt (store rt w) (emailField o) key2 _ _)
      as [e|[user|]]; try reflexivity.
    rewrite bind_proj. reflexivity.
Qed.

(** X13.  Login by secondary identifier: when no record has the
    identifier as its primary one and a record has its lower-case form
    as secondary identifier, the answer is that of the per-record
    procedure on that record, run after exactly two store reads. *)
Theorem X13_login_by_secondary_identifier (identifier : option string)
    (password : string) w (user : Doc) :
  let key1 :=
    (fun u => VString (if usernameLowerCase o then toLowerCase rt u else u))
      <$> identifier in
  let key2 := (fun u => VString (toLowerCase rt u)) <$> identifier in
  findOne rt (store rt w) (usernameField o) key1 (selectFields o)
    (populateFields o) = inr None ->
  findOne rt (store rt w) (emailField o) key2 (selectFields o)
    (populateFields o) = inr (Some user) ->
  let w2 :=
    emit rt (EvFindOne (emailField o) key2)
      (emit rt (EvFindOne (usernameField o) key1) w) in
  let out :=
    statics_authenticate rt o (VString <$> identifier) password w in
  let r := methods_authenticate rt o password user w2 in
  out = ((Some r.1.1, r.1.2), r.2) /\
  store_reads rt out.2 = S (S (store_reads rt w)).
Proof.
  intros key1 key2 H1 H2 w2 out r. subst out.
  rewrite statics_authenticate_cases. fold key1 key2.
  rewrite H1, H2. fold w2 r. split; [reflexivity|]. simpl.
  subst r. rewrite auth_reads. unfold store_reads, w2. simpl.
  rewrite !count_events_app. unfold count_events. simpl. lia.
Qed.

(** X14.  A store error in either lookup is handed to the callback as
    it is: no record is touched, nothing is hashed or saved, and after
    an error in the first lookup the second is not run. *)
Theorem X14_lookup_error_propagates (identifier : option string)
    (password : string) w (err : Error) :
  let key1 :=
    (fun u => VString (if usernameLowerCase o then toLowerCase rt u else u))
      <$> identifier in
  let key2 := (fun u => VString (toLowerCase rt u)) <$> identifier in
  let primary :=
    findOne rt (store rt w) (usernameField o) key1 (selectFields o)
      (populateFields o) in
  let secondary :=
    findOne rt (store rt w) (emailField o) key2 (selectFields o)
      (populateFields o) in
  let out :=
    statics_authenticate rt o (VString <$> identifier) password w in
  primary = inl err \/ (primary = inr None /\ secondary = inl err) ->
  out.1 = (None, CbError err) /\
  store rt out.2 = store rt w /\
  store_writes rt out.2 = store_writes rt w /\
  hash_computations rt out.2 = hash_computations rt w /\
  (primary = inl err -> store_reads rt out.2 = S (store_reads rt w)).
Proof.
  intros key1 key2 primary secondary out H. subst out.
  rewrite statics_authenticate_cases. fold key1 key2 primary secondary.
  unfold store_writes, hash_computations, store_reads.
  destruct H as [H|[H1 H2]].
  - rewrite H. simpl. rewrite !count_events_app. unfold count_events.
    simpl. split_and!; try done; intros; lia.
  - rewrite H1, H2. simpl. rewrite !count_events_app. unfold count_events.
    simpl. split_and!; try done; try lia.
Qed.

(** X15.  The entry point returns a principal only for a record that
    one of the two lookups found, the secondary one being consulted
    only after the primary found nothing, and only when the key derived
    from the password under that record's salt encodes to its digest. *)
Theorem X15_entry_point_principal_is_found_and_matches
    (identifier : option string) (password : string) w (principal : Doc) :
  let key1 :=
    (fun u => VString (if usernameLowerCase o then toLowerCase rt u else u))
      <$> identifier in
  let key2 := (fun u => VString (toLowerCase rt u)) <$> identifier in
  let primary :=
    findOne rt (store rt w) (usernameField o) key1 (selectFields o)
      (populateFields o) in
  let secondary :=
    findOne rt (store rt w) (emailField o) key2 (selectFields o)
      (populateFields o) in
  (statics_authenticate rt o (VString <$> identifier) password w).1.2 =
    CbUser principal ->
  exists user salt hashRaw,
    (primary = inr (Some user) \/
     (primary = inr None /\ secondary = inr (Some user))) /\
    get (saltField o) user = Some (VString salt) /\ salt <> "" /\
    pbkdf2 rt password salt (iterations o) (keylen o) = inr hashRaw /\
    get (hashField o) user =
      Some (VString (Buffer_toString rt (Buffer_binary hashRaw)
                       (encoding o))).
Proof.
  intros key1 key2 primary secondary.
  rewrite statics_authenticate_cases. fold key1 key2 primary secondary.
  destruct primary as [e|[user|]] eqn:H1; simpl; try discriminate.
  - intros H. apply principal_digest in H as (salt & raw & H).
    exists user, salt, raw. tauto.
  - destruct secondary as [e|[user|]] eqn:H2; simpl; try discriminate.
    intros H. apply principal_digest in H as (salt & raw & H).
    exists user, salt, raw. tauto.
Qed.

End MoreLookups.

(** ** Further properties: registration, saving and the session helpers *)

Section MoreRegistration.

Context (rt : Runtime) (o : Options).

Implicit Types (w : World rt) (d : Doc).


(** After a hook that raised nothing, a string held by the email path
    has been replaced by its lower-case form. *)
Lemma pre_save_email_key d (e : string) :
  usernameField o <> emailField o ->
  (pre_save rt o d).2 = None ->
  d !! emailField o = Some (VString e) -> e <> "" ->
  (pre_save rt o d).1 !! emailField o = Some (VString (toLowerCase rt e)).
Proof.
  intros Hne Hok He Hnonempty. unfold pre_save in *.
  assert (negb (e =? "")%string = true) as Htr
    by (by apply negb_true_iff, String.eqb_neq).
  destruct (usernameLowerCase o).
  - destruct (lower rt (d !! usernameField o)) as [err|v']; simpl in *;
      [discriminate|].
    rewrite lookup_insert_ne by done. rewrite He. simpl. rewrite Htr.
    simpl. apply lookup_insert_eq.
  - rewrite He. simpl. rewrite Htr. simpl. apply lookup_insert_eq.
Qed.


(** X17.  On such a store an email address can be registered once,
    whatever its letter case: after a registration has succeeded, one
    with another username and an email of the same lower-case form
    fails with [emailExists] and writes nothing. *)
Theorem X17_email_registered_once (c1 c2 : Candidate)
    (password1 password2 : option string) w (principal : Doc)
    (email1 email2 : string) :
  read_your_writes rt o ->
  usernameField o <> emailField o ->
  emailField o <> hashField o -> emailField o <> saltField o ->
  let first := statics_register rt o c1 password1 w in
  first.1.2 = CbUser principal ->
  get (emailField o) (instantiate rt o c1 w).1 = Some (VString email1) ->
  let made2 := instantiate rt o c2 first.2 in
  get (emailField o) made2.1 = Some (VString email2) ->
  toLowerCase rt email1 = toLowerCase rt email2 ->
  truthy (get (usernameField o) made2.1) = true ->
  email2 <> "" ->
  (statics_findByUsername rt o (get (usernameField o) made2.1) made2.2).1 =
    Missing ->
  let second := statics_register rt o c2 password2 first.2 in
  second.1 = (made2.1, CbError (emailExists_error rt o made2.1)) /\
  store rt second.2 = store rt first.2 /\
  store_writes rt second.2 = store_writes rt first.2.
Proof.
  intros Hryw Hue Heh Hes first Hfirst He1 made2 He2 Hlow Hu2 Hne2 Hl1
    second.
  destruct (register_success rt o c1 password1 w principal Hfirst)
    as (_ & _ & Htr1 & Hsp & Hsv & _ & Hw).
  fold first in Hw.
  set (user1 := (instantiate rt o c1 w).1) in *.
  set (l1 := statics_findByUsername rt o (get (usernameField o) user1)
               (instantiate rt o c1 w).2) in *.
  set (l2 := statics_findByEmail rt o (get (emailField o) user1) l1.2) in *.
  set (setp := methods_setPassword rt o password1 user1 l2.2) in *.
  destruct (save_result_ok rt o setp.1.1 setp.2 Hsv)
    as (Hhook & s & Hpersist & Hstore).
  rewrite <- Hw in Hstore.
  assert (email1 <> "") as Hne1.
  { rewrite He1 in Htr1. simpl in Htr1.
    by apply negb_true_iff, String.eqb_neq in Htr1. }
  assert (setp.1.1 !! emailField o = Some (VString email1)) as He1'.
  { pose proof (setPassword_other rt o password1 user1 l2.2
                  (emailField o) Heh Hes) as Hframe.
    fold setp in Hframe. unfold get in Hframe, He1. by rewrite Hframe. }
  pose proof (pre_save_email_key setp.1.1 email1 Hue Hhook He1' Hne1)
    as Hkey.
  destruct (Hryw _ _ _ _ _ Hpersist Hkey) as (found & Hfound).
  destruct (instantiate_frame rt o c2 first.2) as (Hm1 & _ & Hm3).
  fold made2 in Hm1, Hm3.
  destruct (findByUsername_frame rt o (get (usernameField o) made2.1)
              made2.2) as (Hf1 & Hf2 & _).
  subst second. rewrite register_cases. fold made2.
  rewrite Hu2, He2. simpl.
  assert (negb (email2 =? "")%string = true) as ->
    by (by apply negb_true_iff, String.eqb_neq).
  simpl.
  rewrite Hl1, Hf1, Hm1, Hstore, <- Hlow, Hfound. simpl.
  unfold emailExists_error. rewrite He2.
  split_and!; try done.
  - simpl. by rewrite Hf1, Hm1.
  - unfold store_writes in *. simpl. rewrite count_events_app.
    unfold count_events in *. simpl. lia.
Qed.

End MoreRegistration.

Section MoreComposition.

Context (rt : Runtime) (o : Options).

Implicit Types (w : World rt) (d : Doc).

(** The throttle test reads the world only through its clock. *)
Lemma not_throttled_ticks d w w' :
  ticks rt w' = ticks rt w ->
  not_throttled rt o d w -> not_throttled rt o d w'.
Proof. unfold not_throttled. by intros ->. Qed.

(** X18.  A registered user can log in: when a lookup of the entry
    point returns the record as [register] saved it, and the attempt
    passes the throttle test, [authenticate] with the password given to
    [register] returns that record as the principal.  With throttling
    disabled it is the record itself; with throttling enabled it is the
    record with the failure count set to zero and the last attempt set
    to the clock reading of the write, as the pre-save hook left it, so
    every path other than these two and the two identifiers holds the
    value it held in the record.  Under throttling the record is one
    whose throttle paths hold no text. *)
Theorem X18_registered_user_can_log_in (candidate : Candidate)
    (password : string) (identifier : option string) w (principal : Doc) :
  hashField o <> saltField o ->
  hashField o <> usernameField o -> hashField o <> emailField o ->
  saltField o <> usernameField o -> saltField o <> emailField o ->
  let reg := statics_register rt o candidate (Some password) w in
  reg.1.2 = CbUser principal ->
  truthy (get (saltField o) principal) = true ->
  let key1 :=
    (fun u => VString (if usernameLowerCase o then toLowerCase rt u else u))
      <$> identifier in
  let key2 := (fun u => VString (toLowerCase rt u)) <$> identifier in
  let primary :=
    findOne rt (store rt reg.2) (usernameField o) key1 (selectFields o)
      (populateFields o) in
  let secondary :=
    findOne rt (store rt reg.2) (emailField o) key2 (selectFields o)
      (populateFields o) in
  primary = inr (Some principal) \/
  (primary = inr None /\ secondary = inr (Some principal)) ->
  throttle_state_typed o principal ->
  not_throttled rt o principal reg.2 ->
  let user :=
    if limitAttempts o then
      (pre_save rt o
         (set (attemptsField o) (VNumber (Num 0))
            (set (lastLoginField o)
               (VDate (Date_now_at rt (S (ticks rt reg.2)))) principal))).1
    else principal in
  (statics_authenticate rt o (VString <$> identifier) password reg.2).1 =
    (Some user, CbUser user) /\
  (forall field,
      field <> attemptsField o -> field <> lastLoginField o ->
      field <> usernameField o -> field <> emailField o ->
      get field user = get field principal).
Proof.
  intros Hhs Hhu Hhe Hsu Hse reg Hreg Hsalt key1 key2 primary secondary
    Hfound _ Hopen user.
  destruct (register_success rt o candidate (Some password) w principal Hreg)
    as (_ & _ & _ & Hsp & _ & Hprin & _).
  set (user0 := (instantiate rt o candidate w).1) in *.
  set (l1 := statics_findByUsername rt o (get (usernameField o) user0)
               (instantiate rt o candidate w).2) in *.
  set (l2 := statics_findByEmail rt o (get (emailField o) user0) l1.2) in *.
  set (setp := methods_setPassword rt o (Some password) user0 l2.2) in *.
  rewrite save_doc in Hprin.
  destruct (setPassword_cases rt o (Some password) user0 l2.2)
    as [[_ H]|[(pw & err & _ & _ & H & _)|
               (pw & buf & raw & Hpw & _ & Hr & Hp & H)]];
    fold setp in H.
  { rewrite H in Hsp. simpl in Hsp. discriminate. }
  { rewrite H in Hsp. simpl in Hsp. discriminate. }
  injection Hpw as <-.
  set (salt := Buffer_toString rt buf (encoding o)) in *.
  assert (get (saltField o) principal = Some (VString salt)) as Hs.
  { rewrite Hprin. unfold get. rewrite pre_save_other by done.
    rewrite H. simpl. unfold set. apply lookup_insert_eq. }
  assert (get (hashField o) principal =
          Some (VString (Buffer_toString rt (Buffer_binary raw)
                           (encoding o)))) as Hh.
  { rewrite Hprin. unfold get. rewrite pre_save_other by done.
    rewrite H. simpl. unfold set. rewrite lookup_insert_ne by done.
    apply lookup_insert_eq. }
  assert (salt <> "") as Hne.
  { intros Hempty. rewrite Hs, Hempty in Hsalt. discriminate. }
  assert (forall w', ticks rt w' = ticks rt reg.2 ->
            (methods_authenticate rt o password principal w').1 =
              (user, CbUser user)) as Hauth.
  { intros w' Hw'.
    rewrite (auth_match rt o password salt raw principal w');
      try done; [|by apply (not_throttled_ticks principal reg.2)].
    subst user. unfold after_gate.
    destruct (limitAttempts o); simpl; [|done].
    by rewrite save_doc, Hw'. }
  split.
  - rewrite statics_authenticate_cases. fold key1 key2 primary secondary.
    destruct Hfound as [H1|[H1 H2]].
    + rewrite H1. simpl.
      pose proof (Hauth (emit rt (EvFindOne (usernameField o) key1) reg.2)
                    eq_refl) as Hu.
      by destruct (methods_authenticate rt o password principal _)
        as [[? ?] ?]; simpl in *; injection Hu as -> ->.
    + rewrite H1, H2. simpl.
      pose proof (Hauth (emit rt (EvFindOne (emailField o) key2)
                           (emit rt (EvFindOne (usernameField o) key1)
                              reg.2)) eq_refl) as Hu.
      by destruct (methods_authenticate rt o password principal _)
        as [[? ?] ?]; simpl in *; injection Hu as -> ->.
  - intros field Hfa Hfl Hfu Hfe. subst user.
    destruct (limitAttempts o); [|done].
    unfold get. rewrite pre_save_other by done.
    unfold set. by rewrite !lookup_insert_ne.
Qed.

Lemma findByUsername_missing_reads (v : option value) w :
  (statics_findByUsername rt o v w).1 = Missing ->
  store_reads rt (statics_findByUsername rt o v w).2 = S (store_reads rt w).
Proof.
  unfold statics_findByUsername, store_reads.
  destruct v as [v|]; [destruct (usernameLowerCase o);
                       [destruct (lower rt (Some v))|]|];
    simpl; try discriminate; intros _;
    rewrite count_events_app; unfold count_events; simpl; lia.
Qed.

Lemma findByEmail_missing_reads (v : option value) w :
  (statics_findByEmail rt o v w).1 = Missing ->
  store_reads rt (statics_findByEmail rt o v w).2 = S (store_reads rt w).
Proof.
  unfold statics_findByEmail, store_reads.
  destruct v as [v|]; [destruct (lower rt (Some v))|];
    simpl; try discriminate; intros _;
    rewrite count_events_app; unfold count_events; simpl; lia.
Qed.

(** X19.  [register] looks at the password last: with a missing or
    empty password and both identifiers present and free, it fails with
    [missingPassword] only after both lookups have run; the record is
    as it was, and nothing is written, drawn or hashed. *)
Theorem X19_register_checks_password_last (candidate : Candidate)
    (password : option string) w :
  password = None \/ password = Some "" ->
  let made := instantiate rt o candidate w in
  let user := made.1 in
  let look1 :=
    statics_findByUsername rt o (get (usernameField o) user) made.2 in
  let look2 := statics_findByEmail rt o (get (emailField o) user) look1.2 in
  truthy (get (usernameField o) user) = true ->
  truthy (get (emailField o) user) = true ->
  look1.1 = Missing -> look2.1 = Missing ->
  let out := statics_register rt o candidate password w in
  out.1 = (user, CbError (BadRequestError "missingPassword"
                            (missingPasswordError o))) /\
  store_reads rt out.2 = S (S (store_reads rt w)) /\
  store_writes rt out.2 = store_writes rt w /\
  store rt out.2 = store rt w /\
  draws rt out.2 = draws rt look2.2 /\
  hash_computations rt out.2 = hash_computations rt look2.2.
Proof.
  intros Hpw made user look1 look2 Hu He H1 H2 out. subst out.
  rewrite register_cases. fold made user look1 look2.
  rewrite Hu, He, H1, H2. simpl.
  destruct (setPassword_cases rt o password user look2.2)
    as [[_ H]|[(pw & err & Hp & Hne & _)|(pw & b & r & Hp & Hne & _)]].
  2,3: destruct Hpw as [->| ->]; congruence.
  rewrite H. simpl.
  destruct (instantiate_frame rt o candidate w) as (Hm1 & Hm2 & Hm3).
  fold made in Hm1, Hm2, Hm3.
  destruct (findByUsername_frame rt o (get (usernameField o) user) made.2)
    as (Hf1 & Hf2 & _). fold look1 in Hf1, Hf2.
  destruct (findByEmail_frame rt o (get (emailField o) user) look1.2)
    as (Hg1 & Hg2 & _). fold look2 in Hg1, Hg2.
  pose proof (findByUsername_missing_reads _ _ H1) as Hr1.
  fold look1 in Hr1.
  pose proof (findByEmail_missing_reads _ _ H2) as Hr2.
  fold look2 in Hr2.
  split_and!; try done; congruence.
Qed.

(** After a hook that raised nothing under [usernameLowerCase], the
    username path holds a lower-cased string. *)
Lemma pre_save_username_lower d :
  usernameField o <> emailField o ->
  usernameLowerCase o = true ->
  (pre_save rt o d).2 = None ->
  exists u, (pre_save rt o d).1 !! usernameField o =
            Some (VString (toLowerCase rt u)).
Proof.
  intros Hne Hlow Hok. unfold pre_save in *. rewrite Hlow in *.
  destruct (d !! usernameField o) as [[u|n|ms]|]; simpl in *;
    try discriminate.
  exists u.
  destruct (truthy _); simpl in *.
  - destruct (lower rt (<[_ := _]> d !! emailField o)); simpl in *;
      [discriminate|].
    rewrite lookup_insert_ne by done. apply lookup_insert_eq.
  - apply lookup_insert_eq.
Qed.


End MoreComposition.

(** ** Further properties: options, schema paths and the pre-save hook *)

Lemma or_num_nonzero (x : option Z) (d : Z) : d <> 0 -> or_num x d <> 0.
Proof.
  intros Hd. unfold or_num. destruct x as [z|]; [|done].
  destruct (z =? 0) eqn:Hz; [done|]. by apply Z.eqb_neq.
Qed.

Lemma or_str_nonempty (x : option string) (d : string) :
  d <> "" -> or_str x d <> "".
Proof.
  intros Hd. unfold or_str. destruct x as [s|]; [|done].
  destruct (String.eqb s "") eqn:Hs; [done|]. by apply String.eqb_neq.
Qed.

(** X21.  The defaulting never leaves a falsy setting in place: whatever
    options are passed, the hashing parameters are non-zero, the field
    names, the encoding and the messages are non-empty, and under
    [limitAttempts] so are the throttle field names and the two
    intervals.  A salt length, iteration count or key length of [0] is
    replaced by the default. *)
Theorem X21_defaults_replace_falsy_settings (r : RawOptions) :
  let o := plugin_options r in
  (saltlen o <> 0 /\ iterations o <> 0 /\ keylen o <> 0 /\
   encoding o <> "") /\
  (usernameField o <> "" /\ emailField o <> "" /\
   hashField o <> "" /\ saltField o <> "") /\
  (incorrectPasswordError o <> "" /\ incorrectUsernameError o <> "" /\
   missingUsernameError o <> "" /\ missingEmailError o <> "" /\
   missingPasswordError o <> "" /\ userExistsError o <> "" /\
   noSaltValueStoredError o <> "" /\ attemptTooSoonError o <> "") /\
  (limitAttempts o = true ->
   lastLoginField o <> "" /\ attemptsField o <> "" /\
   interval o <> 0 /\ maxInterval o <> 0) /\
  (raw_saltlen r = Some 0 -> saltlen o = 32) /\
  (raw_iterations r = Some 0 -> iterations o = 25000) /\
  (raw_keylen r = Some 0 -> keylen o = 512).
Proof.
  simpl. split_and!;
    try (apply or_num_nonzero; lia);
    try (apply or_str_nonempty; discriminate);
    try (by intros ->).
  intros _. split_and!;
    try (apply or_num_nonzero; lia);
    try (apply or_str_nonempty; discriminate).
Qed.

Section SchemaAndHook.

Context (rt : Runtime) (o : Options).

Implicit Types (d : Doc).

(** X22.  The plugin does not redeclare a username or email path that
    the schema already has: when the path exists and its name is none
    of the other configured names, the object passed to [schema.add]
    has no entry for it; when it does not exist, the entry is a String
    path, unique as configured for the username and always unique for
    the email. *)
Theorem X22_existing_paths_are_kept (has_path : string -> bool) :
  (usernameField o ∉ [emailField o; hashField o; saltField o;
                      lastLoginField o; attemptsField o] ->
   schemaFields o has_path !! usernameField o =
     if has_path (usernameField o) then None
     else Some {| path_type := TString;
                  path_unique := Some (usernameUnique o);
                  path_default := NoDefault |}) /\
  (emailField o ∉ [usernameField o; hashField o; saltField o;
                   lastLoginField o; attemptsField o] ->
   schemaFields o has_path !! emailField o =
     if has_path (emailField o) then None
     else Some {| path_type := TString; path_unique := Some true;
                  path_default := NoDefault |}).
Proof.
  split; intros Hd; unfold schemaFields;
    repeat (apply not_elem_of_cons in Hd as [? Hd]).
  - destruct (limitAttempts o);
      rewrite ?lookup_insert_ne by done;
      destruct (has_path (emailField o));
      rewrite ?lookup_insert_ne by done;
      destruct (has_path (usernameField o));
      by rewrite ?lookup_insert_eq, ?lookup_empty.
  - destruct (limitAttempts o);
      rewrite ?lookup_insert_ne by done;
      destruct (has_path (emailField o));
      rewrite ?lookup_insert_eq, ?lookup_insert_ne by done; try done;
      destruct (has_path (usernameField o));
      by rewrite ?lookup_insert_ne, ?lookup_empty by done.
Qed.

(** A truthy email that the hook accepted is a non-empty string. *)
Lemma pre_save_email_truthy d :
  usernameField o <> emailField o ->
  (pre_save rt o d).2 = None ->
  truthy (d !! emailField o) = true ->
  exists e, d !! emailField o = Some (VString e) /\ e <> "".
Proof.
  intros Hne Hok Htr. unfold pre_save in *.
  destruct (usernameLowerCase o).
  - destruct (lower rt (d !! usernameField o)); simpl in *; [discriminate|].
    rewrite lookup_insert_ne in Hok by done. rewrite Htr in Hok.
    destruct (d !! emailField o) as [[e|n|ms]|]; simpl in *;
      try discriminate.
    exists e. split; [done|]. by apply String.eqb_neq, negb_true_iff.
  - rewrite Htr in Hok.
    destruct (d !! emailField o) as [[e|n|ms]|]; simpl in *;
      try discriminate.
    exists e. split; [done|]. by apply String.eqb_neq, negb_true_iff.
Qed.

(** A falsy email is left alone. *)
Lemma pre_save_email_falsy d :
  usernameField o <> emailField o ->
  (pre_save rt o d).2 = None ->
  truthy (d !! emailField o) = false ->
  (pre_save rt o d).1 !! emailField o = d !! emailField o.
Proof.
  intros Hne Hok Htr. unfold pre_save in *.
  destruct (usernameLowerCase o).
  - destruct (lower rt (d !! usernameField o)); simpl in *; [discriminate|].
    rewrite lookup_insert_ne by done. rewrite Htr. simpl.
    by rewrite lookup_insert_ne.
  - by rewrite Htr.
Qed.

(** A record whose username and email are already lower-cased is a
    fixed point of the hook. *)
Lemma pre_save_fixpoint d :
  (truthy (d !! emailField o) = true ->
   exists e, d !! emailField o = Some (VString (toLowerCase rt e))) ->
  lower_idempotent rt ->
  (usernameLowerCase o = true ->
   exists u, d !! usernameField o = Some (VString (toLowerCase rt u))) ->
  pre_save rt o d = (d, None).
Proof.
  intros Hemail Hidem Huser. unfold pre_save.
  assert ((if usernameLowerCase o
           then match lower rt (d !! usernameField o) with
                | inl e => (d, Some e)
                | inr v => (<[usernameField o:=v]> d, None)
                end
           else (d, None)) = (d, None)) as ->.
  { destruct (usernameLowerCase o); [|done].
    destruct Huser as (u & Hu); [done|]. rewrite Hu. simpl.
    rewrite Hidem. by rewrite insert_id. }
  destruct (truthy (d !! emailField o)) eqn:Htr; [|done].
  destruct Hemail as (e & He); [done|]. rewrite He. simpl.
  rewrite Hidem. by rewrite insert_id.
Qed.

(** X23.  What the pre-save hook leaves behind when it raises nothing,
    username and email being different paths: a non-empty email string
    is replaced by its lower-case form and anything else in the email
    path is left alone; the username is replaced by its lower-case form
    under [usernameLowerCase] and kept otherwise; no other path
    changes; and with an idempotent lower-casing, running the hook again
    changes nothing more. *)
Theorem X23_pre_save_normalises d :
  usernameField o <> emailField o ->
  (pre_save rt o d).2 = None ->
  let d' := (pre_save rt o d).1 in
  (forall field, field <> usernameField o -> field <> emailField o ->
     d' !! field = d !! field) /\
  (forall e, d !! emailField o = Some (VString e) -> e <> "" ->
     d' !! emailField o = Some (VString (toLowerCase rt e))) /\
  (truthy (d !! emailField o) = false ->
     d' !! emailField o = d !! emailField o) /\
  (usernameLowerCase o = true ->
     exists u, d !! usernameField o = Some (VString u) /\
               d' !! usernameField o = Some (VString (toLowerCase rt u))) /\
  (usernameLowerCase o = false ->
     d' !! usernameField o = d !! usernameField o) /\
  (lower_idempotent rt -> pre_save rt o d' = (d', None)).
Proof.
  intros Hne Hok d'. subst d'. split_and!.
  - intros field Hu He. by apply pre_save_other.
  - intros e He Hnonempty. by apply pre_save_email_key.
  - intros Htr. by apply pre_save_email_falsy.
  - intros Hlow. unfold pre_save in *. rewrite Hlow in *.
    destruct (d !! usernameField o) as [[u|n|ms]|]; simpl in *;
      try discriminate.
    exists u. split; [done|].
    destruct (truthy _); simpl in *.
    + destruct (lower rt (<[_ := _]> d !! emailField o)); simpl in *;
        [discriminate|].
      rewrite lookup_insert_ne by done. apply lookup_insert_eq.
    + apply lookup_insert_eq.
  - intros Hlow. unfold pre_save in *. rewrite Hlow in *.
    destruct (truthy _); simpl in *; [|done].
    destruct (lower rt (d !! emailField o)); simpl in *; [discriminate|].
    by rewrite lookup_insert_ne.
  - intros Hidem. apply pre_save_fixpoint; [|done|].
    + intros Htr.
      destruct (truthy (d !! emailField o)) eqn:Hd.
      * destruct (pre_save_email_truthy d Hne Hok Hd) as (e & He & Hnonempty).
        exists e. by apply pre_save_email_key.
      * rewrite (pre_save_email_falsy d Hne Hok Hd) in Htr. congruence.
    + intros Hlow. by apply pre_save_username_lower.
Qed.

(** X24.  Under [usernameLowerCase] the hook has no guard for a record
    without username: it raises a TypeError and leaves the record as it
    is, and the [save] it belongs to does not write the store;
    [findByUsername] with an [undefined] name, which has the guard,
    raises nothing. *)
Theorem X24_hook_raises_without_username d (w : World rt) :
  usernameLowerCase o = true ->
  d !! usernameField o = None ->
  pre_save rt o d = (d, Some (TypeError "toLowerCase is not a function")) /\
  store rt (save rt o d w).2 = store rt w /\
  forall e, (statics_findByUsername rt o None w).1 <> Raised e.
Proof.
  intros Hlow Hnone.
  assert (pre_save rt o d =
          (d, Some (TypeError "toLowerCase is not a function"))) as Hp.
  { unfold pre_save. by rewrite Hlow, Hnone. }
  split_and!; try done.
  - unfold save. by rewrite Hp.
  - intros e. unfold statics_findByUsername. simpl.
    by destruct (findOne rt _ _ _ _ _) as [?|[?|]].
Qed.

End SchemaAndHook.

(** ** The further properties on concrete inputs *)

Lemma mem_read_your_writes (o : Options) : read_your_writes mem_runtime o.
Proof.
  intros s s' d field v Hp Hd. simpl in *. injection Hp as <-.
  exists d. simpl. by rewrite bool_decide_eq_true_2.
Qed.




Lemma X1_witness :
  (1 <= calculatedInterval throttling_o (Some (VNumber (Num 3))) <=
   IZR (maxInterval throttling_o))%R.
Proof. apply (X1_delay_bounds throttling_o 3); by vm_compute. Defined.

Lemma X2_witness :
  (calculatedInterval throttling_o (Some (VNumber (Num 1))) <=
   calculatedInterval throttling_o (Some (VNumber (Num 2))))%R.
Proof. apply (X2_delay_monotone throttling_o 1 2); by vm_compute. Defined.

Lemma X3_witness :
  exists salt hashRaw,
    get (saltField default_o) registered_doc = Some (VString salt) /\
    salt <> "" /\
    pbkdf2 mem_runtime "secret" salt (iterations default_o)
      (keylen default_o) = inr hashRaw /\
    get (hashField default_o) registered_doc =
      Some (VString (Buffer_toString mem_runtime (Buffer_binary hashRaw)
                       (encoding default_o))).
Proof.
  apply (X3_principal_only_on_matching_digest mem_runtime default_o "secret"
           registered_doc world0 registered_doc).
  vm_compute. reflexivity.
Defined.

Lemma X4_witness :
  let w0 := Build_World failing_kdf_runtime ([] : list Doc) 0 0 [] in
  let w1 := Build_World rejecting_kdf_runtime ([] : list Doc) 0 0 [] in
  (methods_authenticate failing_kdf_runtime throttling_o "secret"
     registered_doc w0).1 =
    (registered_doc, CbError (ExternalError "pbkdf2")) /\
  (methods_authenticate rejecting_kdf_runtime throttling_o "secret"
     registered_doc w1).1 =
    (registered_doc, Thrown (TypeError "The digest argument is required")).
Proof.
  intros w0 w1.
  assert (0 < maxInterval throttling_o) as Hmax by reflexivity.
  split.
  - destruct (X4_kdf_error_is_not_a_failed_attempt failing_kdf_runtime
                throttling_o "secret" "NaCl" (ExternalError "pbkdf2")
                registered_doc w0) as (H1 & H2 & _).
    + intros _. split; intros s Hs; vm_compute in Hs; discriminate.
    + apply (open_not_throttled_0 failing_kdf_runtime throttling_o 0);
        [reflexivity|reflexivity|].
      rewrite delay_no_failures by exact Hmax. compute_IZR. lra.
    + reflexivity.
    + discriminate.
    + reflexivity.
    + apply injective_projections; [exact H1|apply H2; reflexivity].
  - destruct (X4_kdf_error_is_not_a_failed_attempt rejecting_kdf_runtime
                throttling_o "secret" "NaCl"
                (TypeError "The digest argument is required")
                registered_doc w1) as (H1 & _ & H3 & _).
    + intros _. split; intros s Hs; vm_compute in Hs; discriminate.
    + apply (open_not_throttled_0 rejecting_kdf_runtime throttling_o 0);
        [reflexivity|reflexivity|].
      rewrite delay_no_failures by exact Hmax. compute_IZR. lra.
    + reflexivity.
    + discriminate.
    + reflexivity.
    + apply injective_projections; [exact H1|apply H3; reflexivity].
Defined.

Lemma X5_witness :
  exists n,
    get (attemptsField throttling_o)
      (methods_authenticate mem_runtime throttling_o "secret" recent_doc
         world0).1.1 = Some (VNumber (Num n)) /\
    (n = 0 \/ n = 0 \/ n = 0 + 1) /\ (0 <= 0 -> 0 <= n).
Proof.
  apply (X5_failure_count_steps mem_runtime throttling_o "secret" recent_doc
           world0 0).
  - reflexivity.
  - repeat split; discriminate.
  - reflexivity.
Defined.




Lemma X9_witness :
  exists pw buf hashRaw,
    Some "secret" = Some pw /\ pw <> "" /\
    randomBytes_at mem_runtime 0 (saltlen default_o) = inr buf /\
    pbkdf2 mem_runtime pw (Buffer_toString mem_runtime buf (encoding default_o))
      (iterations default_o) (keylen default_o) = inr hashRaw /\
    get (saltField default_o)
      (methods_setPassword mem_runtime default_o (Some "secret") ∅
         world0).1.1 =
      Some (VString (Buffer_toString mem_runtime buf (encoding default_o))) /\
    (hashField default_o <> saltField default_o ->
     get (hashField default_o)
       (methods_setPassword mem_runtime default_o (Some "secret") ∅
          world0).1.1 =
       Some (VString (Buffer_toString mem_runtime (Buffer_binary hashRaw)
                        (encoding default_o)))).
Proof.
  destruct (X9_setPassword_all_or_nothing mem_runtime default_o
              (Some "secret") ∅ world0) as (_ & _ & H).
  apply H. vm_compute. reflexivity.
Defined.

Lemma X10_witness :
  get "attempts"
    (methods_setPassword mem_runtime throttling_o (Some "secret")
       failed_once_doc world0).1.1 = Some (VNumber (Num 1)).
Proof.
  destruct (X10_setPassword_frame mem_runtime throttling_o (Some "secret")
              failed_once_doc world0) as (H & _).
  rewrite H; [reflexivity|discriminate|discriminate].
Defined.

Lemma X11_witness :
  (methods_authenticate mem_runtime throttling_o "wrong"
     (methods_setPassword mem_runtime throttling_o (Some "secret")
        registered_doc world0).1.1 world0).1.2 =
  CbFalse (incorrectPassword_info throttling_o).
Proof.
  refine (proj1 (X11_other_password_rejected_after_change mem_runtime
                   throttling_o "secret" "wrong" registered_doc world0
                   (repeat Byte.x2a 32)
                   (list_byte_of_string
                      ("secret" +:+ string_of_list_byte (repeat Byte.x2a 32)))
                   (list_byte_of_string
                      ("wrong" +:+ string_of_list_byte (repeat Byte.x2a 32)))
                   world0 _ _ _ _ _ _ _ _ _)).
  - discriminate.
  - discriminate.
  - reflexivity.
  - vm_compute. discriminate.
  - reflexivity.
  - reflexivity.
  - vm_compute. discriminate.
  - apply (open_not_throttled_0 mem_runtime throttling_o 0);
      [reflexivity|reflexivity|].
    rewrite delay_no_failures by reflexivity. compute_IZR. lra.
  - intros _. split_and!; [discriminate|by exists 0|].
    intros s Hs. vm_compute in Hs. discriminate.
Defined.

Lemma X12_witness :
  statics_findByEmail mem_runtime default_o (Some (VString "E@X.com"))
    world_with_hugo =
  statics_findByEmail mem_runtime default_o (Some (VString "e@x.com"))
    world_with_hugo.
Proof.
  refine (proj1 (X12_lookups_ignore_case mem_runtime default_o "E@X.com"
                   "e@x.com" world_with_hugo _)).
  reflexivity.
Defined.

Lemma X13_witness :
  (statics_authenticate mem_runtime default_o (VString <$> Some "E@X.com")
     "secret" world_with_hugo).1 = (Some stored_hugo, CbUser stored_hugo).
Proof.
  destruct (X13_login_by_secondary_identifier mem_runtime default_o
              (Some "E@X.com") "secret" world_with_hugo stored_hugo)
    as (H & _).
  - reflexivity.
  - reflexivity.
  - rewrite H. vm_compute. reflexivity.
Defined.

Lemma X14_witness :
  (statics_authenticate failing_store_runtime default_o
     (VString <$> Some "hugo") "secret"
     (Build_World failing_store_runtime ([] : list Doc) 0 0 [])).1 =
  (None, CbError (ExternalError "findOne")).
Proof.
  refine (proj1 (X14_lookup_error_propagates failing_store_runtime default_o
                   (Some "hugo") "secret" _ (ExternalError "findOne") _)).
  left. reflexivity.
Defined.

Lemma X15_witness :
  exists user salt hashRaw,
    (findOne mem_runtime (store mem_runtime world_with_hugo) "username"
       (Some (VString "hugo")) None None = inr (Some user) \/
     (findOne mem_runtime (store mem_runtime world_with_hugo) "username"
        (Some (VString "hugo")) None None = inr None /\
      findOne mem_runtime (store mem_runtime world_with_hugo) "email"
        (Some (VString "hugo")) None None = inr (Some user))) /\
    get "salt" user = Some (VString salt) /\ salt <> "" /\
    pbkdf2 mem_runtime "secret" salt 25000 512 = inr hashRaw /\
    get "hash" user =
      Some (VString (Buffer_toString mem_runtime (Buffer_binary hashRaw)
                       "hex")).
Proof.
  apply (X15_entry_point_principal_is_found_and_matches mem_runtime default_o
           (Some "hugo") "secret" world_with_hugo stored_hugo).
  vm_compute. reflexivity.
Defined.


Lemma X17_witness :
  (statics_register mem_runtime default_o (Plain hugo_again) (Some "other")
     (statics_register mem_runtime default_o (Plain hugo) (Some "pw")
        world0).2).1.2 =
  CbError (emailExists_error mem_runtime default_o hugo_again).
Proof.
  destruct (X17_email_registered_once mem_runtime default_o (Plain hugo)
              (Plain hugo_again) (Some "pw") (Some "other") world0
              (statics_register mem_runtime default_o (Plain hugo)
                 (Some "pw") world0).1.1 "e@x.com" "E@X.com") as (H & _).
  - apply mem_read_your_writes.
  - discriminate.
  - discriminate.
  - discriminate.
  - vm_compute. reflexivity.
  - reflexivity.
  - reflexivity.
  - reflexivity.
  - reflexivity.
  - discriminate.
  - vm_compute. reflexivity.
  - rewrite H. reflexivity.
Defined.

Lemma X18_witness :
  let reg :=
    statics_register mem_runtime throttling_o (Plain hugo) (Some "pw")
      world0 in
  exists user,
    (statics_authenticate mem_runtime throttling_o (VString <$> Some "hugo")
       "pw" reg.2).1 = (Some user, CbUser user) /\
    get "attempts" user = Some (VNumber (Num 0)) /\
    get "hash" user = get "hash" reg.1.1.
Proof.
  intros reg.
  destruct (X18_registered_user_can_log_in mem_runtime throttling_o
              (Plain hugo) "pw" (Some "hugo") world0 reg.1.1) as (H1 & H2).
  - discriminate.
  - discriminate.
  - discriminate.
  - discriminate.
  - discriminate.
  - vm_compute. reflexivity.
  - vm_compute. reflexivity.
  - left. vm_compute. reflexivity.
  - intros _. split; intros s Hs; vm_compute in Hs; discriminate.
  - apply (open_not_throttled_0 mem_runtime throttling_o 1000);
      [vm_compute; reflexivity|vm_compute; reflexivity|].
    rewrite delay_no_failures by reflexivity.
    change (ticks mem_runtime
              (statics_register mem_runtime throttling_o (Plain hugo)
                 (Some "pw") world0).2) with 1%nat.
    compute_IZR. lra.
  - eexists. split; [exact H1|]. split.
    + vm_compute. reflexivity.
    + apply H2; discriminate.
Defined.

Lemma X19_witness :
  (statics_register mem_runtime default_o (Plain hugo) None world0).1 =
  (hugo, CbError (BadRequestError "missingPassword"
                    "Password argument not set!")).
Proof.
  destruct (X19_register_checks_password_last mem_runtime default_o
              (Plain hugo) None world0) as (H & _).
  - by left.
  - reflexivity.
  - reflexivity.
  - reflexivity.
  - reflexivity.
  - rewrite H. reflexivity.
Defined.


Lemma X21_witness : saltlen (plugin_options zero_saltlen_options) = 32.
Proof.
  destruct (X21_defaults_replace_falsy_settings zero_saltlen_options)
    as (_ & _ & _ & _ & H & _).
  apply H. reflexivity.
Defined.

Lemma X22_witness :
  schemaFields default_o (fun _ => true) !! "username" = None.
Proof.
  destruct (X22_existing_paths_are_kept default_o (fun _ => true)) as (H & _).
  apply H. repeat (apply not_elem_of_cons; split; [discriminate|]).
  apply not_elem_of_nil.
Defined.

Lemma X23_witness :
  (pre_save mem_runtime default_o hugo_again).1 !! "email" =
  Some (VString "e@x.com").
Proof.
  destruct (X23_pre_save_normalises mem_runtime default_o hugo_again)
    as (_ & H & _).
  - discriminate.
  - reflexivity.
  - apply (H "E@X.com"); [reflexivity|discriminate].
Defined.

Lemma X24_witness :
  pre_save mem_runtime (plugin_options lowercase_options) ∅ =
  (∅, Some (TypeError "toLowerCase is not a function")).
Proof.
  destruct (X24_hook_raises_without_username mem_runtime
              (plugin_options lowercase_options) ∅ world0) as (H & _).
  - reflexivity.
  - reflexivity.
  - exact H.
Defined.

Lemma X25_witness :
  (methods_authenticate mem_runtime throttling_o "secret" rested_doc
     world0).1 = (rested_doc, CbFalse (noSalt_info throttling_o)).
Proof.
  refine (proj1 (X25_no_salt_changes_nothing mem_runtime throttling_o
                   "secret" rested_doc world0 _ _ _)).
  - intros _. split; intros s Hs; vm_compute in Hs; discriminate.
  - by apply rested_doc_not_throttled.
  - reflexivity.
Defined.
